(** * cairo_vm.go: a shallow embedding of the VM core, the builtin runners
    and the dictionary hints, with the properties checked against it.

    Conventions of the embedding.
    - Go's [uint] and [uint64] are [Z] in [0, 2^64); every addition the
      source performs on them is written with its wrap-around ([uint_add]).
      Go's [int] (the segment index) is a [Z].
    - A Go function returning [(T, error)] returns a [result T]: [Ok v]
      stands for [(v, nil)], [Err e] for [(zero, e)], and [Panic] for a
      run-time panic (nil dereference, index out of range).
    - A pointer that may be [nil] is an [option].
    - A Go [map] is a reference: the maps backing the dictionaries live in
      a store ([MapStore]) and a [Dictionary] holds the location of its
      map, so copies of a tracker share the map. A location that holds no
      map in the store is a nil map: reading it finds no key, assigning to
      it panics.
    - Methods are named [Receiver_Method]; the methods of [VirtualMachine]
      and plain functions keep their names. *)

From Stdlib Require Import ZArith Lia.
From stdpp Require Import gmap strings list fin_maps.

Local Open Scope Z_scope.

(** ** Machine integers *)

Definition UINT_MOD : Z := 2 ^ 64.

(** [a + b] on Go's [uint]. *)
Definition uint_add (a b : Z) : Z := (a + b) mod UINT_MOD.

Definition is_uint (a : Z) : Prop := 0 <= a < UINT_MOD.

(** ** pkg/lambdaworks: the field element *)

(** [type Limb C.limb_t], an unsigned 64-bit integer. *)
Definition Limb : Type := Z.

(** [type Felt struct { limbs [4]Limb }]; [limb_i f] is [f.limbs[i]]. *)
Record Felt : Type := mkFelt { limb0 : Limb; limb1 : Limb; limb2 : Limb; limb3 : Limb }.

Definition limbs_ok (f : Felt) : Prop :=
  is_uint (limb0 f) /\ is_uint (limb1 f) /\ is_uint (limb2 f) /\ is_uint (limb3 f).

(** The Cairo prime, [2^251 + 17 * 2^192 + 1]. *)
Definition CAIRO_PRIME : Z := 2 ^ 251 + 17 * 2 ^ 192 + 1.

(** The integer a limb array stands for on the Go side of the binding:
    [limbs[0]] is the most significant limb and [limbs[3]] the least
    significant one, which is the layout [ToU64] reads. *)
Definition felt_to_Z (f : Felt) : Z :=
  limb0 f * 2 ^ 192 + limb1 f * 2 ^ 128 + limb2 f * 2 ^ 64 + limb3 f.

Definition felt_of_Z (z : Z) : Felt :=
  mkFelt ((z / 2 ^ 192) mod UINT_MOD) ((z / 2 ^ 128) mod UINT_MOD)
         ((z / 2 ^ 64) mod UINT_MOD) (z mod UINT_MOD).

(** Modelled from the spec: the C library behind [From] / [FeltFromUint64]
    (lib/lambdaworks.h is not among the sources); the Felt that stands for
    the unsigned 64-bit [value]. *)
Definition FeltFromUint64 (value : Z) : Felt := felt_of_Z (value mod UINT_MOD).

(** Modelled from the spec: the C library behind [Add]; addition in the
    prime field. *)
Definition Felt_Add (a b : Felt) : Felt :=
  felt_of_Z ((felt_to_Z a + felt_to_Z b) mod CAIRO_PRIME).

(** Modelled from the spec: the C library behind [Mul]; multiplication in
    the prime field. *)
Definition Felt_Mul (a b : Felt) : Felt :=
  felt_of_Z ((felt_to_Z a * felt_to_Z b) mod CAIRO_PRIME).

(** Modelled from the spec: [Bits], the bit-length of the value (0 for 0). *)
Definition Felt_Bits (f : Felt) : Z :=
  if felt_to_Z f =? 0 then 0 else Z.log2 (felt_to_Z f) + 1.

(** [felt.IsZero()], written [felt.Felt == lambdaworks.FeltFromUint64(0)]
    in vm_core.go: equality of the limb arrays. *)
Definition Felt_eqb (a b : Felt) : bool :=
  (limb0 a =? limb0 b) && (limb1 a =? limb1 b) &&
  (limb2 a =? limb2 b) && (limb3 a =? limb3 b).

Definition Felt_IsZero (f : Felt) : bool := Felt_eqb f (FeltFromUint64 0).

(** ** pkg/vm/memory: relocatable values *)

(** [type Relocatable struct { SegmentIndex int; Offset uint }] *)
Record Relocatable : Type := NewRelocatable { SegmentIndex : Z; Offset : Z }.

(** [type Int struct { Felt lambdaworks.Felt }], a one-field wrapper. *)
Definition Int : Type := Felt.

(** [type MaybeRelocatable struct { inner any }]. The source stores an
    [Int] or a [Relocatable] in [inner]; [MNil] is the zero value
    [MaybeRelocatable{}], whose [inner] is nil. *)
Inductive MaybeRelocatable : Type :=
  | MInt (i : Int)
  | MRelocatable (r : Relocatable)
  | MNil.

(** ** Errors, results and panics *)

(** An argument handed to a [%v] / [%d] verb. *)
Inductive fmt_arg : Type :=
  | ArgInt (z : Z)
  | ArgFelt (f : Felt)
  | ArgRelocatable (r : Relocatable)
  | ArgMaybeRelocatable (m : MaybeRelocatable).

(** [errors.New msg], [errors.Errorf format args...] and
    [errors.Wrapf err msg], kept unformatted. *)
Inductive error : Type :=
  | New (msg : string)
  | Errorf (format : string) (args : list fmt_arg)
  | Wrapf (err : error) (msg : string).

Inductive result (T : Type) : Type :=
  | Ok (v : T)
  | Err (e : error)
  | Panic.

Arguments Ok {T} v.
Arguments Err {T} e.
Arguments Panic {T}.

Definition bind {A B : Type} (x : result A) (k : A -> result B) : result B :=
  match x with
  | Ok v => k v
  | Err e => Err e
  | Panic => Panic
  end.

Notation "x <- e ;; k" := (bind e (fun x => k))
  (at level 100, e at next level, right associativity).

(** lambdaworks.go, [func (felt Felt) ToU64() (uint64, error)] *)
Definition Felt_ToU64 (felt : Felt) : result Z :=
  if (limb0 felt =? 0) && (limb1 felt =? 0) && (limb2 felt =? 0)
  then Ok (limb3 felt)
  else Err (New "Cannot convert felt to u64").

(** ** pkg/vm/memory: operations on relocatable values (vm_core.go) *)

(** [func (r *Relocatable) AddFelt(other Int) (Relocatable, error)] *)
Definition Relocatable_AddFelt (r : Relocatable) (other : Int) : result Relocatable :=
  let felt_offset := FeltFromUint64 (Offset r) in
  let new_offset := Felt_Add felt_offset other in
  res_offset <- Felt_ToU64 new_offset ;;
  Ok (NewRelocatable (SegmentIndex r) res_offset).

(** [func NewMaybeRelocatableInt(felt lambdaworks.Felt) *MaybeRelocatable];
    later files call it [NewMaybeRelocatableFelt]. *)
Definition NewMaybeRelocatableInt (felt : Felt) : MaybeRelocatable := MInt felt.

Definition NewMaybeRelocatableFelt (felt : Felt) : MaybeRelocatable := MInt felt.

Definition NewMaybeRelocatableRelocatable (relocatable : Relocatable) : MaybeRelocatable :=
  MRelocatable relocatable.

(** [func (m *MaybeRelocatable) GetInt() (Int, bool)]: the type assertion
    [m.inner.(Int)], which yields the zero [Int] and [false] on any other
    content. Later files call it [GetFelt]. *)
Definition MaybeRelocatable_GetInt (m : MaybeRelocatable) : Int * bool :=
  match m with
  | MInt i => (i, true)
  | _ => (mkFelt 0 0 0 0, false)
  end.

Definition MaybeRelocatable_GetFelt (m : MaybeRelocatable) : Felt * bool :=
  MaybeRelocatable_GetInt m.

(** [func (m *MaybeRelocatable) GetRelocatable() (Relocatable, bool)] *)
Definition MaybeRelocatable_GetRelocatable (m : MaybeRelocatable) : Relocatable * bool :=
  match m with
  | MRelocatable r => (r, true)
  | _ => (NewRelocatable 0 0, false)
  end.

(** [func (r *Relocatable) AddMaybeRelocatable(other MaybeRelocatable)] *)
Definition Relocatable_AddMaybeRelocatable (r : Relocatable) (other : MaybeRelocatable)
  : result Relocatable :=
  let '(felt, ok) := MaybeRelocatable_GetInt other in
  if negb ok then Err (New "Can't add two relocatable values")
  else Relocatable_AddFelt r felt.

(** [func (r *Relocatable) RelocateAddress(relocationTable *[]uint) uint]:
    the slice index panics outside [0, len); the sum is on [uint]. *)
Definition Relocatable_RelocateAddress (r : Relocatable) (relocationTable : list Z)
  : result Z :=
  if SegmentIndex r <? 0 then Panic
  else match relocationTable !! Z.to_nat (SegmentIndex r) with
       | Some base => Ok (uint_add base (Offset r))
       | None => Panic
       end.

(** [func (r *Relocatable) IsEqual(r1 *Relocatable) bool] *)
Definition Relocatable_IsEqual (r r1 : Relocatable) : bool :=
  (SegmentIndex r =? SegmentIndex r1) && (Offset r =? Offset r1).

(** [func (relocatable *Relocatable) AddUint(other uint) (Relocatable, error)] *)
Definition Relocatable_AddUint (relocatable : Relocatable) (other : Z) : result Relocatable :=
  let new_offset := uint_add (Offset relocatable) other in
  Ok (NewRelocatable (SegmentIndex relocatable) new_offset).

(** [func (m *MaybeRelocatable) IsZero() bool] *)
Definition MaybeRelocatable_IsZero (m : MaybeRelocatable) : bool :=
  let '(felt, is_int) := MaybeRelocatable_GetInt m in
  is_int && Felt_eqb felt (FeltFromUint64 0).

(** [func (m *MaybeRelocatable) RelocateValue(relocationTable *[]uint)
    (lambdaworks.Felt, error)] *)
Definition MaybeRelocatable_RelocateValue (m : MaybeRelocatable) (relocationTable : list Z)
  : result Felt :=
  let '(inner_int, ok) := MaybeRelocatable_GetInt m in
  if ok then Ok inner_int
  else
    let '(inner_relocatable, ok) := MaybeRelocatable_GetRelocatable m in
    if ok then
      a <- Relocatable_RelocateAddress inner_relocatable relocationTable ;;
      Ok (FeltFromUint64 a)
    else Err (Errorf "Unexpected type %T" [ArgMaybeRelocatable m]).

(** [func (m *MaybeRelocatable) IsEqual(m1 *MaybeRelocatable) bool] *)
Definition MaybeRelocatable_IsEqual (m m1 : MaybeRelocatable) : bool :=
  let '(a, a_type) := MaybeRelocatable_GetInt m in
  let '(b, b_type) := MaybeRelocatable_GetInt m1 in
  if Bool.eqb a_type b_type then
    if a_type then Felt_eqb a b
    else
      let '(a, _) := MaybeRelocatable_GetRelocatable m in
      let '(b, _) := MaybeRelocatable_GetRelocatable m1 in
      Relocatable_IsEqual a b
  else false.

(** [func (m MaybeRelocatable) AddMaybeRelocatable(other MaybeRelocatable)
    (MaybeRelocatable, error)]; [ComputeRes] calls it [Add]. In the branch
    of a relocatable receiver the source answers a failed [AddFelt] with
    [return MaybeRelocatable{}, nil]. *)
Definition MaybeRelocatable_AddMaybeRelocatable (m other : MaybeRelocatable)
  : result MaybeRelocatable :=
  let '(m_int, m_is_int) := MaybeRelocatable_GetInt m in
  let '(other_int, other_is_int) := MaybeRelocatable_GetInt other in
  if m_is_int && other_is_int then
    Ok (NewMaybeRelocatableInt (Felt_Add m_int other_int))
  else
    let '(m_rel, is_rel_m) := MaybeRelocatable_GetRelocatable m in
    let '(other_rel, is_rel_other) := MaybeRelocatable_GetRelocatable other in
    if is_rel_m && negb is_rel_other then
      let '(other_felt, _) := MaybeRelocatable_GetInt other in
      match Relocatable_AddFelt m_rel other_felt with
      | Ok felt => Ok (NewMaybeRelocatableRelocatable felt)
      | Err _ => Ok MNil
      | Panic => Panic
      end
    else if negb is_rel_m && is_rel_other then
      let '(m_felt, _) := MaybeRelocatable_GetInt m in
      match Relocatable_AddFelt other_rel m_felt with
      | Ok felt => Ok (NewMaybeRelocatableRelocatable felt)
      | Err err => Err err
      | Panic => Panic
      end
    else Err (New "RelocatableAdd").

Definition MaybeRelocatable_Add := MaybeRelocatable_AddMaybeRelocatable.

(** ** Decidable equality and countability, for the maps keyed by
    addresses and by memory values *)

#[global] Instance Felt_eq_dec : EqDecision Felt.
Proof. unfold Limb. solve_decision. Defined.

#[global] Instance Relocatable_eq_dec : EqDecision Relocatable.
Proof. solve_decision. Defined.

#[global] Instance MaybeRelocatable_eq_dec : EqDecision MaybeRelocatable.
Proof. unfold Int. solve_decision. Defined.

#[global] Instance Felt_countable : Countable Felt.
Proof.
  refine (inj_countable' (fun f => (limb0 f, limb1 f, limb2 f, limb3 f))
            (fun t => match t with (a, b, c, d) => mkFelt a b c d end) _).
  by intros [].
Defined.

#[global] Instance Relocatable_countable : Countable Relocatable.
Proof.
  refine (inj_countable' (fun r => (SegmentIndex r, Offset r))
            (fun t => NewRelocatable t.1 t.2) _).
  by intros [].
Defined.

#[global] Instance MaybeRelocatable_countable : Countable MaybeRelocatable.
Proof.
  refine (inj_countable'
            (fun m => match m with
                      | MInt i => inl i
                      | MRelocatable r => inr (inl r)
                      | MNil => inr (inr tt)
                      end)
            (fun s => match s with
                      | inl i => MInt i
                      | inr (inl r) => MRelocatable r
                      | inr (inr _) => MNil
                      end) _).
  by intros [].
Defined.

(** ** pkg/vm/memory: the memory *)

(** Modelled from the spec: [Memory], a mapping from [Relocatable] to
    [MaybeRelocatable] (memory.go is not among the sources). *)
Record Memory : Type := mkMemory { Data : gmap Relocatable MaybeRelocatable }.

(** Modelled from the spec: [get(addr)] returns the cell or fails
    [UnknownMemoryCell]. *)
Definition Memory_Get (mem : Memory) (addr : Relocatable) : result MaybeRelocatable :=
  match Data mem !! addr with
  | Some v => Ok v
  | None => Err (New "UnknownMemoryCell")
  end.

(** Modelled from the spec: [get_felt] additionally asserts the tag. *)
Definition Memory_GetFelt (mem : Memory) (addr : Relocatable) : result Felt :=
  v <- Memory_Get mem addr ;;
  let '(felt, is_felt) := MaybeRelocatable_GetFelt v in
  if is_felt then Ok felt else Err (New "ExpectedFelt").

(** Modelled from the spec: [get_relocatable] additionally asserts the tag. *)
Definition Memory_GetRelocatable (mem : Memory) (addr : Relocatable) : result Relocatable :=
  v <- Memory_Get mem addr ;;
  let '(rel, is_rel) := MaybeRelocatable_GetRelocatable v in
  if is_rel then Ok rel else Err (New "ExpectedRelocatable").

(** Modelled from the spec: [insert(addr, value)] is write-once; an equal
    value may be written again, a different one fails [InconsistentMemory]. *)
Definition Memory_Insert (mem : Memory) (addr : Relocatable) (val : MaybeRelocatable)
  : result Memory :=
  match Data mem !! addr with
  | Some old => if decide (old = val) then Ok mem else Err (New "InconsistentMemory")
  | None => Ok (mkMemory (<[addr := val]> (Data mem)))
  end.

(** ** pkg/vm: instructions and the run context *)

Inductive Opcode : Type := NOp | Call | Ret | AssertEq.
Inductive ResLogic : Type := ResOp1 | ResAdd | ResMul | ResUnconstrained.
Inductive PcUpdate : Type := PcUpdateRegular | PcUpdateJump | PcUpdateJumpRel | PcUpdateJnz.
Inductive ApUpdate : Type := ApUpdateRegular | ApUpdateAdd | ApUpdateAdd1 | ApUpdateAdd2.
Inductive FpUpdate : Type := FpUpdateRegular | FpUpdateAPPlus2 | FpUpdateDst.
Inductive Register : Type := AP | FP.
Inductive Op1Src : Type := Op1SrcImm | Op1SrcAP | Op1SrcFP | Op1SrcOp0.

(** Modelled from the spec: the decoded instruction (instruction.go is not
    among the sources): three signed offsets, the register selectors and
    the flag enumerations that vm_core.go switches on. *)
Record Instruction : Type := mkInstruction {
  OffDst : Z;
  OffOp0 : Z;
  OffOp1 : Z;
  DstReg : Register;
  Op0Reg : Register;
  Op1Addr : Op1Src;
  InstrResLogic : ResLogic;
  InstrPcUpdate : PcUpdate;
  InstrApUpdate : ApUpdate;
  InstrFpUpdate : FpUpdate;
  InstrOpcode : Opcode
}.

(** Modelled from the spec: an instruction's size is 2 if it carries an
    immediate (op1 is read after [pc]), else 1. *)
Definition Instruction_Size (i : Instruction) : Z :=
  match Op1Addr i with Op1SrcImm => 2 | _ => 1 end.

(** [RunContext]: the registers [pc], [ap], [fp]. *)
Record RunContext : Type := mkRunContext { Pc : Relocatable; Ap : Relocatable; Fp : Relocatable }.

(** Modelled from the spec: [base_register + off] for a signed offset; an
    offset that leaves the range of [uint] is an error. *)
Definition add_signed_offset (base : Relocatable) (off : Z) : result Relocatable :=
  let o := Offset base + off in
  if (0 <=? o) && (o <? UINT_MOD) then Ok (NewRelocatable (SegmentIndex base) o)
  else Err (New "OffsetExceeded").

Definition register_value (rc : RunContext) (r : Register) : Relocatable :=
  match r with AP => Ap rc | FP => Fp rc end.

(** Modelled from the spec: [dst = base_register + off_dst]. *)
Definition RunContext_ComputeDstAddr (rc : RunContext) (i : Instruction) : result Relocatable :=
  add_signed_offset (register_value rc (DstReg i)) (OffDst i).

(** Modelled from the spec: [op0 = base_register + off_op0]. *)
Definition RunContext_ComputeOp0Addr (rc : RunContext) (i : Instruction) : result Relocatable :=
  add_signed_offset (register_value rc (Op0Reg i)) (OffOp0 i).

(** Modelled from the spec: the base of [op1] is [pc], the value stored at
    [op0_addr] (which must be a Relocatable), [ap] or [fp]; plus [off_op1]. *)
Definition RunContext_ComputeOp1Addr (rc : RunContext) (i : Instruction)
  (op0 : option MaybeRelocatable) : result Relocatable :=
  match Op1Addr i with
  | Op1SrcImm => add_signed_offset (Pc rc) (OffOp1 i)
  | Op1SrcAP => add_signed_offset (Ap rc) (OffOp1 i)
  | Op1SrcFP => add_signed_offset (Fp rc) (OffOp1 i)
  | Op1SrcOp0 =>
      match op0 with
      | Some (MRelocatable r) => add_signed_offset r (OffOp1 i)
      | _ => Err (New "FailedToComputeOp1Addr")
      end
  end.

(** ** pkg/vm: the virtual machine (vm_core.go) *)

(** The part of [VirtualMachine] the operand computation reads:
    [vm.RunContext] and [vm.Segments.Memory]. *)
Record VirtualMachine : Type := mkVirtualMachine {
  vmRunContext : RunContext;
  vmMemory : Memory
}.

(** [type Operands struct { Dst; Res *MaybeRelocatable; Op0; Op1 }] *)
Record Operands : Type := mkOperands {
  Dst : MaybeRelocatable;
  Res : option MaybeRelocatable;
  Op0 : MaybeRelocatable;
  Op1 : MaybeRelocatable
}.

(** The zero value [Operands{}]. *)
Definition Operands_zero : Operands := mkOperands MNil None MNil MNil.

(** Dereferencing a pointer: a nil pointer panics. *)
Definition deref {A : Type} (p : option A) : result A :=
  match p with
  | Some v => Ok v
  | None => Panic
  end.

(** [func (vm *VirtualMachine) DeduceDst(instruction, res)] *)
Definition DeduceDst (vm : VirtualMachine) (instruction : Instruction)
  (res : option MaybeRelocatable) : option MaybeRelocatable :=
  match InstrOpcode instruction with
  | AssertEq => res
  | Call => Some (NewMaybeRelocatableRelocatable (Fp (vmRunContext vm)))
  | _ => None
  end.

(** [func (vm *VirtualMachine) ComputeRes(instruction, op0, op1)] *)
Definition ComputeRes (vm : VirtualMachine) (instruction : Instruction)
  (op0 op1 : MaybeRelocatable) : result (option MaybeRelocatable) :=
  match InstrResLogic instruction with
  | ResOp1 => Ok (Some op1)
  | ResAdd =>
      maybe_rel <- MaybeRelocatable_Add op0 op1 ;;
      Ok (Some maybe_rel)
  | ResMul =>
      let '(num_op0, m_type) := MaybeRelocatable_GetFelt op0 in
      let '(num_op1, other_type) := MaybeRelocatable_GetFelt op1 in
      if m_type && other_type then
        Ok (Some (NewMaybeRelocatableFelt (Felt_Mul num_op0 num_op1)))
      else Err (New "ComputeResRelocatableMul")
  | ResUnconstrained => Ok None
  end.

(** [func (vm *VirtualMachine) ComputeOperands(instruction) (Operands, error)].
    After each successful address computation [err] is nil, and it is this
    [err] that the three [Get] failures return: a missing cell gives
    [(Operands{}, nil)]. The error of [ComputeRes] is overwritten by the
    final [return operands, nil]; the deduction calls are commented out in
    the source, and the function never writes to memory. *)
Definition ComputeOperands (vm : VirtualMachine) (instruction : Instruction)
  : result Operands :=
  match RunContext_ComputeDstAddr (vmRunContext vm) instruction with
  | Panic => Panic
  | Err _ => Err (New "FailedToComputeDstAddr")
  | Ok dst_addr =>
  match Memory_Get (vmMemory vm) dst_addr with
  | Panic => Panic
  | Err _ => Ok Operands_zero
  | Ok dst_op =>
  match RunContext_ComputeOp0Addr (vmRunContext vm) instruction with
  | Panic => Panic
  | Err _ => Err (New "FailedToComputeOp0Addr")
  | Ok op0_addr =>
  match Memory_Get (vmMemory vm) op0_addr with
  | Panic => Panic
  | Err _ => Ok Operands_zero
  | Ok op0_op =>
  match RunContext_ComputeOp1Addr (vmRunContext vm) instruction (Some op0_op) with
  | Panic => Panic
  | Err _ => Err (New "FailedToComputeOp1Addr")
  | Ok op1_addr =>
  match Memory_Get (vmMemory vm) op1_addr with
  | Panic => Panic
  | Err _ => Ok Operands_zero
  | Ok op1_op =>
  match ComputeRes vm instruction op0_op op1_op with
  | Panic => Panic
  | Err _ => Ok (mkOperands dst_op None op0_op op1_op)
  | Ok res => Ok (mkOperands dst_op res op0_op op1_op)
  end end end end end end end.

Section Deductions.

(** [MaybeRelocatable.Sub] and [Felt.Div] are called by the deduction
    functions and defined in files that are not among the sources. *)
Variable MaybeRelocatable_Sub : MaybeRelocatable -> MaybeRelocatable -> result MaybeRelocatable.
Variable Felt_Div : Felt -> Felt -> Felt.

(** [func (vm *VirtualMachine) DeduceOp0(instruction *Instruction, dst, op1
    *MaybeRelocatable) (deduced_op0, deduced_res *MaybeRelocatable, error)] *)
Definition DeduceOp0 (vm : VirtualMachine) (instruction : Instruction)
  (dst op1 : option MaybeRelocatable)
  : result (option MaybeRelocatable * option MaybeRelocatable) :=
  match InstrOpcode instruction with
  | Call =>
      let pc := Pc (vmRunContext vm) in
      let deduced_op0 :=
        NewRelocatable (SegmentIndex pc) (uint_add (Offset pc) (Instruction_Size instruction)) in
      Ok (Some (NewMaybeRelocatableRelocatable deduced_op0), None)
  | AssertEq =>
      match InstrResLogic instruction with
      | ResAdd =>
          match dst, op1 with
          | Some d, Some o1 =>
              deduced_op0 <- MaybeRelocatable_Sub d o1 ;;
              Ok (Some deduced_op0, dst)
          | _, _ => Ok (None, None)
          end
      | ResMul =>
          match dst, op1 with
          | Some d, Some o1 =>
              let '(dst_felt, dst_is_felt) := MaybeRelocatable_GetFelt d in
              let '(op1_felt, op1_is_felt) := MaybeRelocatable_GetFelt o1 in
              if dst_is_felt && op1_is_felt && negb (Felt_IsZero op1_felt) then
                Ok (Some (NewMaybeRelocatableFelt (Felt_Div dst_felt op1_felt)), dst)
              else Ok (None, None)
          | _, _ => Ok (None, None)
          end
      | _ => Ok (None, None)
      end
  | _ => Ok (None, None)
  end.

(** [func (vm *VirtualMachine) DeduceOp1(instruction Instruction, dst, op0
    *MaybeRelocatable)]. The [ResMul] case calls [dst.GetFelt()] and
    [op0.GetFelt()] on the pointers as they come: [GetFelt] reads
    [m.inner], so a nil pointer panics there. *)
Definition DeduceOp1 (vm : VirtualMachine) (instruction : Instruction)
  (dst op0 : option MaybeRelocatable)
  : result (option MaybeRelocatable * option MaybeRelocatable) :=
  match InstrOpcode instruction with
  | AssertEq =>
      match InstrResLogic instruction with
      | ResOp1 => Ok (dst, dst)
      | ResAdd =>
          match op0, dst with
          | Some o0, Some d =>
              dst_rel <- MaybeRelocatable_Sub d o0 ;;
              Ok (Some dst_rel, dst)
          | _, _ => Ok (None, None)
          end
      | ResMul =>
          d <- deref dst ;;
          let '(dst_felt, dst_is_felt) := MaybeRelocatable_GetFelt d in
          o0 <- deref op0 ;;
          let '(op0_felt, op0_is_felt) := MaybeRelocatable_GetFelt o0 in
          if dst_is_felt && op0_is_felt && negb (Felt_IsZero op0_felt) then
            Ok (Some (NewMaybeRelocatableFelt (Felt_Div dst_felt op0_felt)), dst)
          else Ok (None, None)
      | ResUnconstrained => Ok (None, None)
      end
  | _ => Ok (None, None)
  end.

End Deductions.

(** ** pkg/builtins: the pedersen runner (part_003) *)

Definition PEDERSEN_CELLS_PER_INSTANCE : Z := 3.

(** [type PedersenBuiltinRunner struct { base; included; verified_addresses []bool }] *)
Record PedersenBuiltinRunner : Type := mkPedersenBuiltinRunner {
  pedersen_base : Relocatable;
  pedersen_included : bool;
  verified_addresses : list bool
}.

(** [func NewPedersenBuiltinRunner(included bool) *PedersenBuiltinRunner]:
    every other field has its zero value, so [verified_addresses] is nil. *)
Definition NewPedersenBuiltinRunner (included : bool) : PedersenBuiltinRunner :=
  mkPedersenBuiltinRunner (NewRelocatable 0 0) included [].

(** [s[i]] on a slice, for an index of type [uint]: panics from [len s] on. *)
Definition slice_index {A : Type} (s : list A) (i : Z) : result A :=
  if i <? 0 then Panic
  else match s !! Z.to_nat i with
       | Some v => Ok v
       | None => Panic
       end.

(** [s[i] = v] on a slice: panics from [len s] on. *)
Definition slice_assign {A : Type} (s : list A) (i : Z) (v : A) : result (list A) :=
  if (0 <=? i) && (i <? Z.of_nat (length s)) then Ok (<[Z.to_nat i := v]> s)
  else Panic.

(** [a - b] on Go's [uint]. *)
Definition uint_sub (a b : Z) : Z := (a - b) mod UINT_MOD.

(** [int(x)] for a [uint] [x]. *)
Definition int_of_uint (x : Z) : Z := if x <? 2 ^ 63 then x else x - UINT_MOD.

Section Pedersen.

(** [starknet_crypto.PedersenHash], whose package is not among the sources. *)
Variable PedersenHash : Felt -> Felt -> Felt.

(** [func (p *PedersenBuiltinRunner) DeduceMemoryCell(address, mem)], which
    returns a [*MaybeRelocatable] and an [error]; the runner is returned with the result
    because the method assigns to [p.verified_addresses]. The first
    condition indexes [verified_addresses] before the slice is grown. *)
Definition PedersenBuiltinRunner_DeduceMemoryCell (p : PedersenBuiltinRunner)
  (address : Relocatable) (mem : Memory)
  : result (PedersenBuiltinRunner * option MaybeRelocatable) :=
  if negb (Offset address mod PEDERSEN_CELLS_PER_INSTANCE =? 2) then Ok (p, None)
  else
    verified <- slice_index (verified_addresses p) (Offset address) ;;
    if (verified : bool) then Ok (p, None)
    else
      match Memory_GetFelt mem
              (NewRelocatable (SegmentIndex address) (uint_sub (Offset address) 1)) with
      | Panic => Panic
      | Err _ => Ok (p, None)
      | Ok numA =>
      match Memory_GetFelt mem
              (NewRelocatable (SegmentIndex address) (uint_sub (Offset address) 2)) with
      | Panic => Panic
      | Err _ => Ok (p, None)
      | Ok numB =>
          let grown :=
            if Z.of_nat (length (verified_addresses p)) <=? int_of_uint (Offset address)
            then verified_addresses p ++ [false]
            else verified_addresses p in
          marked <- slice_assign grown (Offset address) false ;;
          let x := PedersenHash numA numB in
          Ok (mkPedersenBuiltinRunner (pedersen_base p) (pedersen_included p) marked,
              Some (NewMaybeRelocatableFelt x))
      end end.

End Pedersen.

(** ** pkg/builtins: the range-check runner (part_003) *)

Definition INNER_RC_BOUND_SHIFT : Z := 16.
Definition N_PARTS : Z := 8.

(** [func RangeCheckError(err error) error] *)
Definition RangeCheckError (err : error) : error := Wrapf err "Range check error".

(** [func OutsideBoundsError(felt lambdaworks.Felt) error] *)
Definition OutsideBoundsError (felt : Felt) : error :=
  RangeCheckError (Errorf "Value %d is out of bounds [0, 2^128]" [ArgFelt felt]).

(** [func NotAFeltError(addr memory.Relocatable, val memory.MaybeRelocatable) error] *)
Definition NotAFeltError (addr : Relocatable) (val : MaybeRelocatable) : error :=
  let '(rel, _) := MaybeRelocatable_GetRelocatable val in
  RangeCheckError (Errorf "Value %d found in %d is not a field element"
                     [ArgRelocatable rel; ArgRelocatable addr]).

(** [func RangeCheckValidationRule(mem *memory.Memory, address
    memory.Relocatable) ([]memory.Relocatable, error)] *)
Definition RangeCheckValidationRule (mem : Memory) (address : Relocatable)
  : result (list Relocatable) :=
  res_val <- Memory_Get mem address ;;
  let '(felt, is_felt) := MaybeRelocatable_GetFelt res_val in
  if negb is_felt then Err (NotAFeltError address res_val)
  else if Felt_Bits felt <=? N_PARTS * INNER_RC_BOUND_SHIFT then Ok [address]
  else Err (OutsideBoundsError felt).

(** ** pkg/hints/dict_manager (part_001) *)

(** The store of Go maps of type [map[MaybeRelocatable]MaybeRelocatable],
    by location. A location outside the store is a nil map. *)
Abbreviation MapStore := (gmap nat (gmap MaybeRelocatable MaybeRelocatable)).

(** [m[key] = val] on the map at [loc]: an assignment to a nil map panics. *)
Definition map_assign (loc : nat) (key val : MaybeRelocatable) (store : MapStore)
  : result MapStore :=
  match store !! loc with
  | Some m => Ok (<[loc := <[key := val]> m]> store)
  | None => Panic
  end.

(** [type Dictionary struct { dict map[...]...; defaultValue *MaybeRelocatable }];
    [dict] is the location of the map, [defaultValue] may be nil. *)
Record Dictionary : Type := mkDictionary {
  dict : nat;
  defaultValue : option MaybeRelocatable
}.

(** [func NewDefaultDictionary(defaultValue *MaybeRelocatable, dict *map[...]...)] *)
Definition NewDefaultDictionary (defaultValue : option MaybeRelocatable) (dict : nat)
  : Dictionary :=
  mkDictionary dict defaultValue.

(** [func NewDictionary(dict *map[...]...) Dictionary] *)
Definition NewDictionary (dict : nat) : Dictionary := mkDictionary dict None.

(** [func (d *Dictionary) Get(key *MaybeRelocatable) *MaybeRelocatable]:
    the returned pointer and the store as the call leaves it. The read
    [d.dict[*key]] finds nothing in a nil map; the assignment
    [d.dict[*key] = *d.defaultValue] panics on one. *)
Definition Dictionary_Get (d : Dictionary) (key : MaybeRelocatable) (store : MapStore)
  : result (option MaybeRelocatable * MapStore) :=
  match (store !!! dict d) !! key with
  | Some val => Ok (Some val, store)
  | None =>
      match defaultValue d with
      | Some dv =>
          store' <- map_assign (dict d) key dv store ;;
          Ok (Some dv, store')
      | None => Ok (None, store)
      end
  end.

(** [func (d *Dictionary) Insert(key *MaybeRelocatable, val *MaybeRelocatable)]:
    [d.dict[*key] = *val], which panics on a nil map. *)
Definition Dictionary_Insert (d : Dictionary) (key val : MaybeRelocatable) (store : MapStore)
  : result MapStore :=
  map_assign (dict d) key val store.

(** [type DictTracker struct { data Dictionary; currentPtr Relocatable }];
    the hints of part_000 spell the second field [CurrentPtr]. *)
Record DictTracker : Type := mkDictTracker {
  data : Dictionary;
  currentPtr : Relocatable
}.

(** [func NewDictTrackerForDictionary(base, dict) DictTracker] *)
Definition NewDictTrackerForDictionary (base : Relocatable) (dict : nat) : DictTracker :=
  mkDictTracker (NewDictionary dict) base.

(** [func NewDictTrackerForDefaultDictionary(base, defaultValue, dict) DictTracker] *)
Definition NewDictTrackerForDefaultDictionary (base : Relocatable)
  (defaultValue : option MaybeRelocatable) (dict : nat) : DictTracker :=
  mkDictTracker (NewDefaultDictionary defaultValue dict) base.

(** [func (d *DictTracker) GetValue(key *MaybeRelocatable) *MaybeRelocatable] *)
Definition DictTracker_GetValue (d : DictTracker) (key : MaybeRelocatable) (store : MapStore)
  : result (option MaybeRelocatable * MapStore) :=
  Dictionary_Get (data d) key store.

(** [func (d *DictTracker) InsertValue(key, val *MaybeRelocatable)] *)
Definition DictTracker_InsertValue (d : DictTracker) (key val : MaybeRelocatable)
  (store : MapStore) : result MapStore :=
  Dictionary_Insert (data d) key val store.

(** [type DictManager struct { trackers map[int]DictTracker }]: the map
    holds tracker structs, not pointers to them. *)
Record DictManager : Type := mkDictManager { trackers : gmap Z DictTracker }.

(** [func NewDictManager() DictManager] *)
Definition NewDictManager : DictManager := mkDictManager ∅.

(** [func (d *DictManager) GetTracker(dict_ptr Relocatable)], of result
    type [*DictTracker] and [error]:
    [tracker, ok := d.trackers[...]] copies the struct out of the map and
    [return &tracker, nil] returns the address of that copy, so the result
    is a tracker value of its own. *)
Definition DictManager_GetTracker (d : DictManager) (dict_ptr : Relocatable)
  : result DictTracker :=
  match trackers d !! SegmentIndex dict_ptr with
  | None =>
      Err (Errorf "Dict Error: No dict tracker found for segment %d"
             [ArgInt (SegmentIndex dict_ptr)])
  | Some tracker =>
      if decide (currentPtr tracker = dict_ptr) then Ok tracker
      else Err (Errorf "Dict Error: Wrong dict pointer supplied. Got %v, expected %v"
                  [ArgRelocatable dict_ptr; ArgRelocatable (currentPtr tracker)])
  end.

(** ** pkg/hints: execution scopes and the ids manager *)

(** A value stored in a scope: the [any] of [ExecutionScopes], with the
    two dynamic types the hints of the sources assert. *)
Inductive ScopeValue : Type :=
  | ScopeDictManager (d : DictManager)
  | ScopeUint64 (n : Z).

(** Modelled from the spec: [ExecutionScopes] (pkg/types is not among the
    sources), reduced to the variables visible in the current scope. *)
Record ExecutionScopes : Type := mkExecutionScopes { scope_vars : gmap string ScopeValue }.

(** Modelled from the spec: [scopes.Get(name)] looks a variable up. *)
Definition ExecutionScopes_Get (scopes : ExecutionScopes) (name : string) : result ScopeValue :=
  match scope_vars scopes !! name with
  | Some v => Ok v
  | None => Err (New "VariableNotInScope")
  end.

(** Modelled from the spec: [IdsManager] (pkg/hints/hint_utils is not among
    the sources) maps an identifier name to the address its reference
    resolves to under the current [ap] and [fp]. *)
Record IdsManager : Type := mkIdsManager { References : gmap string Relocatable }.

Definition IdsManager_addr (ids : IdsManager) (name : string) : result Relocatable :=
  match References ids !! name with
  | Some a => Ok a
  | None => Err (New "MissingIdentifier")
  end.

(** Modelled from the spec: [ids.Get(name, vm)] reads the cell. *)
Definition IdsManager_Get (ids : IdsManager) (name : string) (vm : VirtualMachine)
  : result MaybeRelocatable :=
  a <- IdsManager_addr ids name ;;
  Memory_Get (vmMemory vm) a.

(** Modelled from the spec: [ids.GetRelocatable(name, vm)] asserts the tag. *)
Definition IdsManager_GetRelocatable (ids : IdsManager) (name : string) (vm : VirtualMachine)
  : result Relocatable :=
  a <- IdsManager_addr ids name ;;
  Memory_GetRelocatable (vmMemory vm) a.

(** Modelled from the spec: [ids.Insert(name, value, vm)] writes the cell
    through the write-once [insert] of the memory. *)
Definition IdsManager_Insert (ids : IdsManager) (name : string) (value : MaybeRelocatable)
  (vm : VirtualMachine) : result VirtualMachine :=
  a <- IdsManager_addr ids name ;;
  mem <- Memory_Insert (vmMemory vm) a value ;;
  Ok (mkVirtualMachine (vmRunContext vm) mem).

(** ** pkg/hints: the dictionary hints (part_000) *)

Definition DICT_ACCESS_SIZE : Z := 3.

(** What a hint reads and writes: the execution scopes, the store of maps
    and the virtual machine. *)
Record HintState : Type := mkHintState {
  hScopes : ExecutionScopes;
  hStore : MapStore;
  hVm : VirtualMachine
}.

(** A hint step: a result together with the state it leaves behind, also
    when it fails. *)
Definition Hint (A : Type) : Type := HintState -> result A * HintState.

Definition hret {A : Type} (a : A) : Hint A := fun st => (Ok a, st).

Definition hfail {A : Type} (e : error) : Hint A := fun st => (Err e, st).

Definition hbind {A B : Type} (m : Hint A) (k : A -> Hint B) : Hint B :=
  fun st =>
    match m st with
    | (Ok a, st') => k a st'
    | (Err e, st') => (Err e, st')
    | (Panic, st') => (Panic, st')
    end.

Notation "x <~ e ;; k" := (hbind e (fun x => k))
  (at level 100, e at next level, right associativity).

(** A call that only reads the state. *)
Definition hread {A : Type} (f : HintState -> result A) : Hint A :=
  fun st => (f st, st).

(** [func FetchDictManager(scopes *ExecutionScopes)], of result type
    [*DictManager] and [bool]. *)
Definition FetchDictManager (scopes : ExecutionScopes) : option DictManager :=
  match ExecutionScopes_Get scopes "__dict_manager" with
  | Ok (ScopeDictManager val) => Some val
  | _ => None
  end.

(** Modelled from the spec: the [GetValue] of two results that the hints
    of part_000 call; the one-result [GetValue] of part_001 with a missing
    value reported as the error [DictKeyNotFound]. *)
Definition tracker_GetValue (tracker : DictTracker) (key : MaybeRelocatable)
  : Hint MaybeRelocatable :=
  fun st =>
    match DictTracker_GetValue tracker key (hStore st) with
    | Ok (Some val, store) => (Ok val, mkHintState (hScopes st) store (hVm st))
    | Ok (None, store) =>
        (Err (New "DictKeyNotFound"), mkHintState (hScopes st) store (hVm st))
    | Err e => (Err e, st)
    | Panic => (Panic, st)
    end.

(** [tracker.InsertValue(key, val)] on the store of the state. *)
Definition tracker_InsertValue (tracker : DictTracker) (key val : MaybeRelocatable)
  : Hint unit :=
  fun st =>
    match DictTracker_InsertValue tracker key val (hStore st) with
    | Ok store => (Ok tt, mkHintState (hScopes st) store (hVm st))
    | Err e => (Err e, st)
    | Panic => (Panic, st)
    end.

(** [ids.Insert(name, val, vm)] as a statement: the returned error is
    dropped, and a failed insertion leaves the memory as it was. *)
Definition ids_Insert_unchecked (ids : IdsManager) (name : string) (val : MaybeRelocatable)
  : Hint unit :=
  fun st =>
    match IdsManager_Insert ids name val (hVm st) with
    | Ok vm => (Ok tt, mkHintState (hScopes st) (hStore st) vm)
    | _ => (Ok tt, st)
    end.

(** [tracker.CurrentPtr.Offset += DICT_ACCESS_SIZE] on the tracker that
    [GetTracker] returned. *)
Definition advance_CurrentPtr (tracker : DictTracker) : DictTracker :=
  mkDictTracker (data tracker)
    (NewRelocatable (SegmentIndex (currentPtr tracker))
       (uint_add (Offset (currentPtr tracker)) DICT_ACCESS_SIZE)).

Definition fetch_dict_manager : Hint DictManager :=
  fun st =>
    match FetchDictManager (hScopes st) with
    | Some dictManager => (Ok dictManager, st)
    | None => (Err (New "Variable __dict_manager not present in current execution scope"), st)
    end.

(** [func dictRead(ids IdsManager, scopes *ExecutionScopes, vm *VirtualMachine) error] *)
Definition dictRead (ids : IdsManager) : Hint unit :=
  dictManager <~ fetch_dict_manager ;;
  dict_ptr <~ hread (fun st => IdsManager_GetRelocatable ids "dict_ptr" (hVm st)) ;;
  key <~ hread (fun st => IdsManager_Get ids "key" (hVm st)) ;;
  tracker <~ hread (fun _ => DictManager_GetTracker dictManager dict_ptr) ;;
  let tracker := advance_CurrentPtr tracker in
  val <~ tracker_GetValue tracker key ;;
  _ <~ ids_Insert_unchecked ids "value" val ;;
  hret tt.

(** [func dictWrite(ids IdsManager, scopes *ExecutionScopes, vm *VirtualMachine) error] *)
Definition dictWrite (ids : IdsManager) : Hint unit :=
  dictManager <~ fetch_dict_manager ;;
  dict_ptr <~ hread (fun st => IdsManager_GetRelocatable ids "dict_ptr" (hVm st)) ;;
  key <~ hread (fun st => IdsManager_Get ids "key" (hVm st)) ;;
  new_value <~ hread (fun st => IdsManager_Get ids "new_value" (hVm st)) ;;
  tracker <~ hread (fun _ => DictManager_GetTracker dictManager dict_ptr) ;;
  let tracker := advance_CurrentPtr tracker in
  prev_val <~ tracker_GetValue tracker key ;;
  _ <~ ids_Insert_unchecked ids "prev_value" prev_val ;;
  _ <~ tracker_InsertValue tracker key new_value ;;
  hret tt.

(** [func dictUpdate(ids IdsManager, scopes *ExecutionScopes, vm *VirtualMachine) error] *)
Definition dictUpdate (ids : IdsManager) : Hint unit :=
  dictManager <~ fetch_dict_manager ;;
  dict_ptr <~ hread (fun st => IdsManager_GetRelocatable ids "dict_ptr" (hVm st)) ;;
  key <~ hread (fun st => IdsManager_Get ids "key" (hVm st)) ;;
  new_value <~ hread (fun st => IdsManager_Get ids "new_value" (hVm st)) ;;
  prev_value <~ hread (fun st => IdsManager_Get ids "prev_value" (hVm st)) ;;
  tracker <~ hread (fun _ => DictManager_GetTracker dictManager dict_ptr) ;;
  current_value <~ tracker_GetValue tracker key ;;
  if decide (prev_value <> current_value) then
    hfail (Errorf "Wrong previous value in dict. Got %v, expected %v."
             [ArgMaybeRelocatable current_value; ArgMaybeRelocatable prev_value])
  else
    _ <~ tracker_InsertValue tracker key new_value ;;
    let tracker := advance_CurrentPtr tracker in
    hret tt.

(** The tracker a later hint finds for a dictionary pointer: the dict
    manager of the scopes of the state, asked through [GetTracker]. *)
Definition next_fetch (st : HintState) (dict_ptr : Relocatable) : result DictTracker :=
  match FetchDictManager (hScopes st) with
  | Some dictManager => DictManager_GetTracker dictManager dict_ptr
  | None => Err (New "Variable __dict_manager not present in current execution scope")
  end.

(** ** pkg/vm/memory and pkg/vm: the rest of vm_core.go *)

(** [func (relocatable *Relocatable) SubUint(other uint) (Relocatable, error)];
    the error value [&SubReloctableError{Msg: m}] is kept as [New m], and
    likewise [&VirtualMachineError{m}] below. *)
Definition Relocatable_SubUint (relocatable : Relocatable) (other : Z) : result Relocatable :=
  if Offset relocatable <? other then Err (New "RelocatableSubUsizeNegOffset")
  else
    let new_offset := uint_sub (Offset relocatable) other in
    Ok (NewRelocatable (SegmentIndex relocatable) new_offset).

(** [func (vm *VirtualMachine) OpcodeAssertions(instruction, operands) error];
    [Ok tt] is the nil error. For a call, the result of
    [operands.Dst.GetRelocatable()] is used whatever its flag says. *)
Definition OpcodeAssertions (vm : VirtualMachine) (instruction : Instruction)
  (operands : Operands) : result unit :=
  match InstrOpcode instruction with
  | AssertEq =>
      match Res operands with
      | None => Err (New "UnconstrainedResAssertEq")
      | Some res =>
          if negb (MaybeRelocatable_IsEqual res (Dst operands))
          then Err (New "DiffAssertValues")
          else Ok tt
      end
  | Call =>
      new_rel <- Relocatable_AddUint (Pc (vmRunContext vm)) (Instruction_Size instruction) ;;
      let returnPC := NewMaybeRelocatableRelocatable new_rel in
      if negb (MaybeRelocatable_IsEqual (Op0 operands) returnPC)
      then Err (New "CantWriteReturnPc")
      else
        let returnFP := Fp (vmRunContext vm) in
        let '(dstRelocatable, _) := MaybeRelocatable_GetRelocatable (Dst operands) in
        if negb (Relocatable_IsEqual returnFP dstRelocatable)
        then Err (New "CantWriteReturnFp")
        else Ok tt
  | _ => Ok tt
  end.

(** Assignments to the registers of [vm.RunContext]. *)
Definition set_Pc (vm : VirtualMachine) (pc : Relocatable) : VirtualMachine :=
  mkVirtualMachine (mkRunContext pc (Ap (vmRunContext vm)) (Fp (vmRunContext vm))) (vmMemory vm).

Definition set_Ap (vm : VirtualMachine) (ap : Relocatable) : VirtualMachine :=
  mkVirtualMachine (mkRunContext (Pc (vmRunContext vm)) ap (Fp (vmRunContext vm))) (vmMemory vm).

Definition set_Fp (vm : VirtualMachine) (fp : Relocatable) : VirtualMachine :=
  mkVirtualMachine (mkRunContext (Pc (vmRunContext vm)) (Ap (vmRunContext vm)) fp) (vmMemory vm).

(** [r.Offset += n] on a register. *)
Definition bump_Offset (r : Relocatable) (n : Z) : Relocatable :=
  NewRelocatable (SegmentIndex r) (uint_add (Offset r) n).

(** [func (vm *VirtualMachine) UpdatePc(instruction, operands) error]: the
    error (or nil) together with the machine as the call leaves it. *)
Definition UpdatePc (vm : VirtualMachine) (instruction : Instruction) (operands : Operands)
  : result unit * VirtualMachine :=
  let pc := Pc (vmRunContext vm) in
  match InstrPcUpdate instruction with
  | PcUpdateRegular => (Ok tt, set_Pc vm (bump_Offset pc (Instruction_Size instruction)))
  | PcUpdateJump =>
      match Res operands with
      | None => (Err (New "Res.UNCONSTRAINED cannot be used with PcUpdate.JUMP"), vm)
      | Some r =>
          let '(res, ok) := MaybeRelocatable_GetRelocatable r in
          if negb ok
          then (Err (New "An integer value as Res cannot be used with PcUpdate.JUMP"), vm)
          else (Ok tt, set_Pc vm res)
      end
  | PcUpdateJumpRel =>
      match Res operands with
      | None => (Err (New "Res.UNCONSTRAINED cannot be used with PcUpdate.JUMP_REL"), vm)
      | Some r =>
          let '(res, ok) := MaybeRelocatable_GetFelt r in
          if negb ok
          then (Err (New "A relocatable value as Res cannot be used with PcUpdate.JUMP_REL"), vm)
          else
            match Relocatable_AddFelt pc res with
            | Ok new_pc => (Ok tt, set_Pc vm new_pc)
            | Err err => (Err err, vm)
            | Panic => (Panic, vm)
            end
      end
  | PcUpdateJnz =>
      if MaybeRelocatable_IsZero (Dst operands)
      then (Ok tt, set_Pc vm (bump_Offset pc (Instruction_Size instruction)))
      else
        match Relocatable_AddMaybeRelocatable pc (Op1 operands) with
        | Ok new_pc => (Ok tt, set_Pc vm new_pc)
        | Err err => (Err err, vm)
        | Panic => (Panic, vm)
        end
  end.

(** [func (vm *VirtualMachine) UpdateAp(instruction, operands) error] *)
Definition UpdateAp (vm : VirtualMachine) (instruction : Instruction) (operands : Operands)
  : result unit * VirtualMachine :=
  let ap := Ap (vmRunContext vm) in
  match InstrApUpdate instruction with
  | ApUpdateAdd =>
      match Res operands with
      | None => (Err (New "Res.UNCONSTRAINED cannot be used with ApUpdate.ADD"), vm)
      | Some r =>
          match Relocatable_AddMaybeRelocatable ap r with
          | Ok new_ap => (Ok tt, set_Ap vm new_ap)
          | Err err => (Err err, vm)
          | Panic => (Panic, vm)
          end
      end
  | ApUpdateAdd1 => (Ok tt, set_Ap vm (bump_Offset ap 1))
  | ApUpdateAdd2 => (Ok tt, set_Ap vm (bump_Offset ap 2))
  | ApUpdateRegular => (Ok tt, vm)
  end.

(** [func (vm *VirtualMachine) UpdateFp(instruction, operands) error]:
    [FpUpdateAPPlus2] assigns the offset of [fp] only. *)
Definition UpdateFp (vm : VirtualMachine) (instruction : Instruction) (operands : Operands)
  : result unit * VirtualMachine :=
  let fp := Fp (vmRunContext vm) in
  match InstrFpUpdate instruction with
  | FpUpdateAPPlus2 =>
      (Ok tt, set_Fp vm (NewRelocatable (SegmentIndex fp)
                           (uint_add (Offset (Ap (vmRunContext vm))) 2)))
  | FpUpdateDst =>
      let '(rel, ok) := MaybeRelocatable_GetRelocatable (Dst operands) in
      if ok then (Ok tt, set_Fp vm rel)
      else
        let '(felt, _) := MaybeRelocatable_GetFelt (Dst operands) in
        match Relocatable_AddFelt fp felt with
        | Ok new_fp => (Ok tt, set_Fp vm new_fp)
        | Err err => (Err err, vm)
        | Panic => (Panic, vm)
        end
  | FpUpdateRegular => (Ok tt, vm)
  end.

(** [func (vm *VirtualMachine) UpdateRegisters(instruction, operands) error]:
    [fp], then [ap], then [pc]; the first error stops the sequence and the
    registers already assigned keep their new values. *)
Definition UpdateRegisters (vm : VirtualMachine) (instruction : Instruction)
  (operands : Operands) : result unit * VirtualMachine :=
  match UpdateFp vm instruction operands with
  | (Ok _, vm1) =>
      match UpdateAp vm1 instruction operands with
      | (Ok _, vm2) => UpdatePc vm2 instruction operands
      | failed => failed
      end
  | failed => failed
  end.

(** The entries of [vm.Trace] and of [vm.RelocatedTrace]: three registers,
    relocatable in the first and of type [uint] in the second. *)
Record TraceEntry : Type := mkTraceEntry {
  tracePc : Relocatable;
  traceAp : Relocatable;
  traceFp : Relocatable
}.

Record RelocatedTraceEntry : Type := mkRelocatedTraceEntry {
  relocatedPc : Z;
  relocatedAp : Z;
  relocatedFp : Z
}.

(** The loop of [RelocateTrace]: each entry is relocated and appended to
    [v.RelocatedTrace]. *)
Fixpoint relocate_entries (trace : list TraceEntry) (relocationTable : list Z)
  (relocated : list RelocatedTraceEntry) : result (list RelocatedTraceEntry) :=
  match trace with
  | [] => Ok relocated
  | entry :: rest =>
      pc <- Relocatable_RelocateAddress (tracePc entry) relocationTable ;;
      ap <- Relocatable_RelocateAddress (traceAp entry) relocationTable ;;
      fp <- Relocatable_RelocateAddress (traceFp entry) relocationTable ;;
      relocate_entries rest relocationTable (relocated ++ [mkRelocatedTraceEntry pc ap fp])
  end.

(** [func (v *VirtualMachine) RelocateTrace(relocationTable *[]uint) error],
    on the two fields it uses: it reads [v.Trace] and returns the new
    [v.RelocatedTrace]. *)
Definition RelocateTrace (Trace : list TraceEntry) (RelocatedTrace : list RelocatedTraceEntry)
  (relocationTable : list Z) : result (list RelocatedTraceEntry) :=
  if Z.of_nat (length relocationTable) <? 2
  then Err (New "No relocation found for execution segment")
  else relocate_entries Trace relocationTable RelocatedTrace.

(** [func (v *VirtualMachine) GetRelocatedTrace() ([]RelocatedTraceEntry, error)] *)
Definition GetRelocatedTrace (RelocatedTrace : list RelocatedTraceEntry)
  : result (list RelocatedTraceEntry) :=
  if 0 <? Z.of_nat (length RelocatedTrace) then Ok RelocatedTrace
  else Err (New "Trace not relocated").

(** An entry of the relocated trace is the relocation of a trace entry. *)
Definition relocates (relocationTable : list Z) (entry : TraceEntry)
  (relocated : RelocatedTraceEntry) : Prop :=
  Relocatable_RelocateAddress (tracePc entry) relocationTable = Ok (relocatedPc relocated) /\
  Relocatable_RelocateAddress (traceAp entry) relocationTable = Ok (relocatedAp relocated) /\
  Relocatable_RelocateAddress (traceFp entry) relocationTable = Ok (relocatedFp relocated).

(** ** pkg/hints/dict_manager: the rest of part_001 *)

(** [func (d *DictTracker) CopyDictionary() map[...]...]: returns
    [d.data.dict], the map itself. *)
Definition DictTracker_CopyDictionary (d : DictTracker) : nat := dict (data d).

(** Modelled from the spec: [vm.Segments.AddSegment()] allocates numbered
    segments monotonically; it returns the base of segment [num_segments]
    and the next count. *)
Definition Segments_AddSegment (num_segments : Z) : Relocatable * Z :=
  (NewRelocatable num_segments 0, num_segments + 1).

(** [func (d *DictManager) NewDictionary(dict, vm) Relocatable]: the base,
    the manager after [d.trackers[base.SegmentIndex] = ...] and the
    segment count. *)
Definition DictManager_NewDictionary (d : DictManager) (dict : nat) (num_segments : Z)
  : Relocatable * DictManager * Z :=
  let '(base, n) := Segments_AddSegment num_segments in
  (base,
   mkDictManager (<[SegmentIndex base := NewDictTrackerForDictionary base dict]> (trackers d)),
   n).

(** [func (d *DictManager) NewDefaultDictionary(defaultValue, dict, vm) Relocatable] *)
Definition DictManager_NewDefaultDictionary (d : DictManager)
  (defaultValue : option MaybeRelocatable) (dict : nat) (num_segments : Z)
  : Relocatable * DictManager * Z :=
  let '(base, n) := Segments_AddSegment num_segments in
  (base,
   mkDictManager (<[SegmentIndex base :=
                      NewDictTrackerForDefaultDictionary base defaultValue dict]> (trackers d)),
   n).

(** The memory a dropped [ids.Insert] leaves behind. *)
Definition after_Insert (ids : IdsManager) (name : string) (val : MaybeRelocatable)
  (vm : VirtualMachine) : VirtualMachine :=
  match IdsManager_Insert ids name val vm with
  | Ok vm' => vm'
  | _ => vm
  end.

(** ** Sample inputs *)

(** [call rel 4] with [ap = fp = (1, 2)]: [dst = [ap]], [op0 = [ap + 1]],
    [op1 = [pc + 1]]. *)
Definition call_instruction : Instruction :=
  mkInstruction 0 1 1 AP AP Op1SrcImm ResOp1 PcUpdateJumpRel ApUpdateAdd2
    FpUpdateAPPlus2 Call.

(** The memory before the call: the two words of the instruction, and the
    cell of [dst] already holding the frame pointer; the cell of [op0],
    [(1, 3)], is empty. *)
Definition call_memory : Memory :=
  mkMemory (<[NewRelocatable 0 0 := MInt (FeltFromUint64 1226245742482522112)]>
           (<[NewRelocatable 0 1 := MInt (FeltFromUint64 4)]>
           (<[NewRelocatable 1 2 := MRelocatable (NewRelocatable 1 2)]> ∅))).

Definition call_vm : VirtualMachine :=
  mkVirtualMachine
    (mkRunContext (NewRelocatable 0 0) (NewRelocatable 1 2) (NewRelocatable 1 2))
    call_memory.

(** [[ap] = [fp - 2] * [fp - 1]] as an [AssertEq] with res-logic [Mul]. *)
Definition mul_assert_instruction : Instruction :=
  mkInstruction 0 (-2) (-1) AP FP Op1SrcFP ResMul PcUpdateRegular ApUpdateAdd1
    FpUpdateRegular AssertEq.

(** A dictionary on segment 2 with default value 0, whose map is at
    location 0 of the store and whose tracker points at [(2, 0)]. *)
Definition sample_tracker : DictTracker :=
  NewDictTrackerForDefaultDictionary (NewRelocatable 2 0) (Some (MInt (FeltFromUint64 0))) 0.

Definition sample_scopes : ExecutionScopes :=
  mkExecutionScopes
    {[ "__dict_manager" := ScopeDictManager (mkDictManager {[ 2 := sample_tracker ]}) ]}.

(** The identifiers of the dictionary hints, resolved on segment 1. *)
Definition sample_ids : IdsManager :=
  mkIdsManager
    (<["dict_ptr" := NewRelocatable 1 0]>
    (<["key" := NewRelocatable 1 1]>
    (<["value" := NewRelocatable 1 2]>
    (<["prev_value" := NewRelocatable 1 3]>
    (<["new_value" := NewRelocatable 1 4]> ∅))))).

(** The cells of a hint call with [ids.dict_ptr = (2, 0)] and the given
    key, previous value and new value; [ids.value] is empty. *)
Definition hint_memory (key prev_value new_value : Z) : Memory :=
  mkMemory
    (<[NewRelocatable 1 0 := MRelocatable (NewRelocatable 2 0)]>
    (<[NewRelocatable 1 1 := MInt (FeltFromUint64 key)]>
    (<[NewRelocatable 1 3 := MInt (FeltFromUint64 prev_value)]>
    (<[NewRelocatable 1 4 := MInt (FeltFromUint64 new_value)]> ∅)))).

Definition hint_state (contents : gmap MaybeRelocatable MaybeRelocatable)
  (key prev_value new_value : Z) : HintState :=
  mkHintState sample_scopes {[ 0%nat := contents ]}
    (mkVirtualMachine
       (mkRunContext (NewRelocatable 0 0) (NewRelocatable 1 5) (NewRelocatable 1 5))
       (hint_memory key prev_value new_value)).

(** The dictionary holds [1 -> 10]; the hint is called with key 1,
    previous value 99 and new value 11. *)
Definition state_key_bound : HintState :=
  hint_state {[ MInt (FeltFromUint64 1) := MInt (FeltFromUint64 10) ]} 1 99 11.

(** The dictionary is empty; same call. *)
Definition state_key_absent : HintState := hint_state ∅ 1 99 11.

(** The dictionary holds [1 -> 10]; the call has previous value 10. *)
Definition state_key_bound_prev_10 : HintState :=
  hint_state {[ MInt (FeltFromUint64 1) := MInt (FeltFromUint64 10) ]} 1 10 11.

(** The memory of [[ap] = [fp - 2] * [fp - 1]] with [ap = fp = (1, 2)]:
    3, 4 and their product 12. *)
Definition mul_vm : VirtualMachine :=
  mkVirtualMachine
    (mkRunContext (NewRelocatable 0 0) (NewRelocatable 1 2) (NewRelocatable 1 2))
    (mkMemory (<[NewRelocatable 1 0 := MInt (FeltFromUint64 3)]>
              (<[NewRelocatable 1 1 := MInt (FeltFromUint64 4)]>
              (<[NewRelocatable 1 2 := MInt (FeltFromUint64 12)]> ∅)))).

(** An instruction whose [dst] offset leads below the start of the segment. *)
Definition below_segment_instruction : Instruction :=
  mkInstruction (-5) 0 0 AP AP Op1SrcAP ResOp1 PcUpdateRegular ApUpdateRegular
    FpUpdateRegular NOp.

(** [jmp rel [ap + 1] if [ap] != 0]. *)
Definition jnz_instruction : Instruction :=
  mkInstruction 0 0 1 AP AP Op1SrcAP ResUnconstrained PcUpdateJnz ApUpdateRegular
    FpUpdateRegular NOp.

(** A pedersen runner on segment 3 whose slice of verified addresses has
    three entries, and a memory with the Felts 5 and 6 in its first two
    cells. *)
Definition pedersen_runner : PedersenBuiltinRunner :=
  mkPedersenBuiltinRunner (NewRelocatable 3 0) true [false; false; false].

Definition pedersen_memory : Memory :=
  mkMemory (<[NewRelocatable 3 0 := MInt (FeltFromUint64 5)]>
           (<[NewRelocatable 3 1 := MInt (FeltFromUint64 6)]> ∅)).


(** A stand-in for the hash that tells its arguments apart. *)
Definition sample_hash (a b : Felt) : Felt := felt_of_Z (2 * felt_to_Z a + felt_to_Z b).

(** As [state_key_bound], with [ids.value] already holding 77. *)
Definition state_value_taken : HintState :=
  mkHintState sample_scopes
    {[ 0%nat := {[ MInt (FeltFromUint64 1) := MInt (FeltFromUint64 10) ]} ]}
    (mkVirtualMachine
       (mkRunContext (NewRelocatable 0 0) (NewRelocatable 1 5) (NewRelocatable 1 5))
       (mkMemory (<[NewRelocatable 1 2 := MInt (FeltFromUint64 77)]>
                    (Data (hint_memory 1 99 11))))).

(** * Properties *)

(** ** Field elements *)

Lemma felt_to_Z_of_uint (x : Z) : is_uint x -> felt_to_Z (FeltFromUint64 x) = x.
Proof.
  unfold is_uint, FeltFromUint64, felt_of_Z, felt_to_Z, UINT_MOD. intros Hx. simpl.
  rewrite (Z.mod_small x) by lia.
  rewrite (Z.div_small x (2 ^ 64)) by lia.
  rewrite (Z.div_small x (2 ^ 128)) by lia.
  rewrite (Z.div_small x (2 ^ 192)) by lia.
  rewrite Z.mod_0_l by lia. rewrite (Z.mod_small x) by lia. lia.
Qed.

(** C8. For a Felt [f] (limbs in range), [ToU64] succeeds exactly when the
    integer value of [f] is below [2^64], and then returns that value;
    otherwise it fails. *)
Theorem ToU64_succeeds_iff_fits (f : Felt) (Hf : limbs_ok f) :
  (forall v, Felt_ToU64 f = Ok v <-> felt_to_Z f < 2 ^ 64 /\ v = felt_to_Z f) /\
  (2 ^ 64 <= felt_to_Z f -> Felt_ToU64 f = Err (New "Cannot convert felt to u64")).
Proof.
  destruct f as [l0 l1 l2 l3]. unfold limbs_ok, is_uint, UINT_MOD in Hf. simpl in Hf.
  destruct Hf as (H0 & H1 & H2 & H3).
  unfold Felt_ToU64, felt_to_Z. simpl.
  destruct (Z.eqb_spec l0 0) as [-> | N0]; simpl.
  - destruct (Z.eqb_spec l1 0) as [-> | N1]; simpl.
    + destruct (Z.eqb_spec l2 0) as [-> | N2]; simpl.
      * split; [intros v; split; [intros [= <-]; lia | intros [_ ->]; f_equal; lia] | lia].
      * split; [intros v; split; [discriminate | lia] | reflexivity].
    + split; [intros v; split; [discriminate | lia] | reflexivity].
  - split; [intros v; split; [discriminate | lia] | reflexivity].
Qed.

Lemma ToU64_succeeds_iff_fits_witness :
  limbs_ok (mkFelt 0 0 0 7) /\ Felt_ToU64 (mkFelt 0 0 0 7) = Ok 7.
Proof.
  assert (Hf : limbs_ok (mkFelt 0 0 0 7)).
  { unfold limbs_ok, is_uint, UINT_MOD; simpl; lia. }
  split; [exact Hf |].
  apply (proj1 (ToU64_succeeds_iff_fits (mkFelt 0 0 0 7) Hf)).
  unfold felt_to_Z; simpl; lia.
Defined.

Example ToU64_two_limbs : Felt_ToU64 (mkFelt 0 0 1 0) = Err (New "Cannot convert felt to u64").
Proof. reflexivity. Qed.

(** ** Addition of relocatable values *)

Lemma felt_of_Z_ToU64 (z : Z) :
  0 <= z < 2 ^ 256 ->
  (z < 2 ^ 64 -> Felt_ToU64 (felt_of_Z z) = Ok z) /\
  (2 ^ 64 <= z -> Felt_ToU64 (felt_of_Z z) = Err (New "Cannot convert felt to u64")).
Proof.
  intros Hz. unfold Felt_ToU64, felt_of_Z, UINT_MOD. simpl. split.
  - intros Hlt.
    rewrite (Z.div_small z (2 ^ 64)), (Z.div_small z (2 ^ 128)), (Z.div_small z (2 ^ 192)) by lia.
    rewrite Z.mod_0_l by lia. simpl. rewrite Z.mod_small by lia. reflexivity.
  - intros Hge.
    destruct (Z.eqb_spec ((z / 2 ^ 192) mod 2 ^ 64) 0) as [E0 | N0]; simpl; [| reflexivity].
    destruct (Z.eqb_spec ((z / 2 ^ 128) mod 2 ^ 64) 0) as [E1 | N1]; simpl; [| reflexivity].
    destruct (Z.eqb_spec ((z / 2 ^ 64) mod 2 ^ 64) 0) as [E2 | N2]; simpl; [| reflexivity].
    exfalso.
    assert (H192 : z / 2 ^ 192 = 0).
    { rewrite Z.mod_small in E0; [exact E0 |].
      split; [apply Z.div_pos; lia | apply Z.div_lt_upper_bound; lia]. }
    assert (H128 : z / 2 ^ 128 = 0).
    { pose proof (Z.div_mod (z / 2 ^ 128) (2 ^ 64) ltac:(lia)) as D.
      rewrite Z.div_div in D by lia.
      change (2 ^ 128 * 2 ^ 64) with (2 ^ 192) in D. lia. }
    assert (H64 : z / 2 ^ 64 = 0).
    { pose proof (Z.div_mod (z / 2 ^ 64) (2 ^ 64) ltac:(lia)) as D.
      rewrite Z.div_div in D by lia.
      change (2 ^ 64 * 2 ^ 64) with (2 ^ 128) in D. lia. }
    apply Z.div_small_iff in H64; lia.
Qed.

Lemma CAIRO_PRIME_bounds : 0 < CAIRO_PRIME < 2 ^ 256.
Proof. unfold CAIRO_PRIME. lia. Qed.

(** What [AddFelt] computes: the offset plus the Felt, in the field, kept
    when it fits in 64 bits; the segment is unchanged. *)
Lemma Relocatable_AddFelt_spec (r : Relocatable) (other : Felt) :
  let sum := (felt_to_Z (FeltFromUint64 (Offset r)) + felt_to_Z other) mod CAIRO_PRIME in
  (sum < 2 ^ 64 ->
   Relocatable_AddFelt r other = Ok (NewRelocatable (SegmentIndex r) sum)) /\
  (2 ^ 64 <= sum ->
   Relocatable_AddFelt r other = Err (New "Cannot convert felt to u64")).
Proof.
  intros sum. unfold Relocatable_AddFelt, Felt_Add. fold sum.
  pose proof CAIRO_PRIME_bounds as HP.
  assert (Hs : 0 <= sum < 2 ^ 256).
  { pose proof (Z.mod_pos_bound
                  (felt_to_Z (FeltFromUint64 (Offset r)) + felt_to_Z other) CAIRO_PRIME
                  ltac:(lia)). unfold sum. lia. }
  destruct (felt_of_Z_ToU64 sum Hs) as [Hlt Hge]. split; intros H.
  - rewrite (Hlt H). reflexivity.
  - rewrite (Hge H). reflexivity.
Qed.

Lemma Add_Felt_Felt (a b : Felt) :
  MaybeRelocatable_AddMaybeRelocatable (MInt a) (MInt b) = Ok (MInt (Felt_Add a b)).
Proof. reflexivity. Qed.

Lemma Add_Address_Address (a b : Relocatable) :
  MaybeRelocatable_AddMaybeRelocatable (MRelocatable a) (MRelocatable b)
  = Err (New "RelocatableAdd").
Proof. reflexivity. Qed.

(** A Felt receiver and an address argument: the error of [AddFelt] is
    returned. *)
Lemma Add_Felt_Address (f : Felt) (r : Relocatable) :
  MaybeRelocatable_AddMaybeRelocatable (MInt f) (MRelocatable r)
  = (r' <- Relocatable_AddFelt r f ;; Ok (MRelocatable r')).
Proof.
  unfold MaybeRelocatable_AddMaybeRelocatable. simpl.
  destruct (Relocatable_AddFelt r f); reflexivity.
Qed.

(** An address receiver and a Felt argument: a failed [AddFelt] is
    answered with the zero value and no error. *)
Lemma Add_Address_Felt (r : Relocatable) (f : Felt) :
  MaybeRelocatable_AddMaybeRelocatable (MRelocatable r) (MInt f)
  = match Relocatable_AddFelt r f with
    | Ok r' => Ok (MRelocatable r')
    | Err _ => Ok MNil
    | Panic => Panic
    end.
Proof. reflexivity. Qed.

(** C6, at the input where the code departs from it. The address
    [(0, 2^64 - 1)] plus the Felt 1 has an offset that does not fit in 64
    bits: with the Felt as receiver the addition fails, with the address as
    receiver it returns the zero value [MaybeRelocatable{}] and no error. *)
Theorem Add_Address_Felt_overflow_not_reported :
  MaybeRelocatable_AddMaybeRelocatable
    (MRelocatable (NewRelocatable 0 (2 ^ 64 - 1))) (MInt (FeltFromUint64 1)) = Ok MNil /\
  MaybeRelocatable_AddMaybeRelocatable
    (MInt (FeltFromUint64 1)) (MRelocatable (NewRelocatable 0 (2 ^ 64 - 1)))
  = Err (New "Cannot convert felt to u64").
Proof. split; vm_compute; reflexivity. Qed.

Example Add_Address_Felt_fits :
  MaybeRelocatable_AddMaybeRelocatable
    (MRelocatable (NewRelocatable 1 4)) (MInt (FeltFromUint64 3))
  = Ok (MRelocatable (NewRelocatable 1 7)).
Proof. vm_compute. reflexivity. Qed.

(** ** Relocation *)

Lemma uint_add_exact (a b : Z) : is_uint (a + b) -> uint_add a b = a + b.
Proof. unfold is_uint, uint_add. intros H. apply Z.mod_small. exact H. Qed.

(** C7. With a relocation table [T] that has an entry for the segments
    involved, a cell address [(s, off)] relocates to [T[s] + off] (the sum
    of Go's [uint], equal to the integer sum whenever that fits in 64
    bits); an address value [v] relocates to the Felt of
    [T[v.segment] + v.offset], and a Felt value is returned unchanged. *)
Theorem relocation_of_a_cell (T : list Z) (addr : Relocatable) (base : Z)
  (Hseg : 0 <= SegmentIndex addr)
  (Hbase : T !! Z.to_nat (SegmentIndex addr) = Some base) :
  Relocatable_RelocateAddress addr T = Ok (uint_add base (Offset addr)) /\
  (is_uint (base + Offset addr) ->
   Relocatable_RelocateAddress addr T = Ok (base + Offset addr)) /\
  (forall f : Felt, MaybeRelocatable_RelocateValue (MInt f) T = Ok f) /\
  (forall (v : Relocatable) (vbase : Z),
     0 <= SegmentIndex v ->
     T !! Z.to_nat (SegmentIndex v) = Some vbase ->
     MaybeRelocatable_RelocateValue (MRelocatable v) T
     = Ok (FeltFromUint64 (uint_add vbase (Offset v))) /\
     (is_uint (vbase + Offset v) ->
      felt_to_Z (FeltFromUint64 (uint_add vbase (Offset v))) = vbase + Offset v)).
Proof.
  assert (Haddr : forall (r : Relocatable) (b : Z),
             0 <= SegmentIndex r -> T !! Z.to_nat (SegmentIndex r) = Some b ->
             Relocatable_RelocateAddress r T = Ok (uint_add b (Offset r))).
  { intros r b Hr Hb. unfold Relocatable_RelocateAddress.
    destruct (Z.ltb_spec (SegmentIndex r) 0) as [Hneg | _]; [lia |].
    rewrite Hb. reflexivity. }
  split; [apply Haddr; assumption |].
  split.
  { intros Hfit. rewrite (Haddr addr base Hseg Hbase).
    rewrite uint_add_exact by exact Hfit. reflexivity. }
  split; [reflexivity |].
  intros v vbase Hv Hvb. split.
  - unfold MaybeRelocatable_RelocateValue. simpl.
    rewrite (Haddr v vbase Hv Hvb). reflexivity.
  - intros Hfit. rewrite uint_add_exact by exact Hfit.
    apply felt_to_Z_of_uint. exact Hfit.
Qed.

Lemma relocation_of_a_cell_witness :
  Relocatable_RelocateAddress (NewRelocatable 1 4) [1; 10; 25] = Ok 14 /\
  MaybeRelocatable_RelocateValue (MRelocatable (NewRelocatable 2 3)) [1; 10; 25]
  = Ok (FeltFromUint64 28).
Proof.
  pose proof (relocation_of_a_cell [1; 10; 25] (NewRelocatable 1 4) 10
                ltac:(simpl; lia) eq_refl) as (H1 & _ & _ & H4).
  split; [exact H1 |].
  exact (proj1 (H4 (NewRelocatable 2 3) 25 ltac:(simpl; lia) eq_refl)).
Defined.

(** A segment index outside the table is a run-time panic of the slice
    index. *)
Example RelocateAddress_outside_table :
  Relocatable_RelocateAddress (NewRelocatable 3 0) [1; 10; 25] = Panic /\
  Relocatable_RelocateAddress (NewRelocatable (-1) 0) [1; 10; 25] = Panic.
Proof. split; reflexivity. Qed.

(** ** Operand computation and deduction *)

(** Whatever [ComputeOperands] returns without error is either the zero
    value [Operands{}] or three cells read from memory: no operand is ever
    a deduced one. *)
Lemma ComputeOperands_reads_or_zero (vm : VirtualMachine) (i : Instruction) (ops : Operands) :
  ComputeOperands vm i = Ok ops ->
  ops = Operands_zero \/
  exists dst_addr op0_addr op1_addr,
    Data (vmMemory vm) !! dst_addr = Some (Dst ops) /\
    Data (vmMemory vm) !! op0_addr = Some (Op0 ops) /\
    Data (vmMemory vm) !! op1_addr = Some (Op1 ops).
Proof.
  unfold ComputeOperands, Memory_Get.
  destruct (RunContext_ComputeDstAddr _ _) as [dst_addr | |]; try discriminate.
  destruct (Data (vmMemory vm) !! dst_addr) as [dst_op |] eqn:Hd;
    [| intros [= <-]; left; reflexivity].
  destruct (RunContext_ComputeOp0Addr _ _) as [op0_addr | |]; try discriminate.
  destruct (Data (vmMemory vm) !! op0_addr) as [op0_op |] eqn:H0;
    [| intros [= <-]; left; reflexivity].
  destruct (RunContext_ComputeOp1Addr _ _ _) as [op1_addr | |]; try discriminate.
  destruct (Data (vmMemory vm) !! op1_addr) as [op1_op |] eqn:H1;
    [| intros [= <-]; left; reflexivity].
  destruct (ComputeRes _ _ _ _) as [res | |]; try discriminate;
    intros [= <-]; right; exists dst_addr, op0_addr, op1_addr; simpl; auto.
Qed.

(** The deduction rule of [DeduceOp0] for a call: [pc + instruction.size]. *)
Lemma DeduceOp0_Call Sub Div (vm : VirtualMachine) (i : Instruction)
  (dst op1 : option MaybeRelocatable) :
  InstrOpcode i = Call ->
  DeduceOp0 Sub Div vm i dst op1
  = Ok (Some (MRelocatable
                (NewRelocatable (SegmentIndex (Pc (vmRunContext vm)))
                   (uint_add (Offset (Pc (vmRunContext vm))) (Instruction_Size i)))),
        None).
Proof. intros H. unfold DeduceOp0. rewrite H. reflexivity. Qed.

(** C1, at an input where the code departs from it. For the call
    instruction of [call_vm] the cell of [op0] is empty. [ComputeOperands]
    returns the zero value [Operands{}] and no error: [op0] is not
    deduced, although [DeduceOp0] yields [pc + 2 = (0, 2)] for it, and
    nothing is written (the function has no access to a write). *)
Theorem ComputeOperands_missing_op0_not_deduced :
  RunContext_ComputeOp0Addr (vmRunContext call_vm) call_instruction = Ok (NewRelocatable 1 3) /\
  Data (vmMemory call_vm) !! NewRelocatable 1 3 = None /\
  ComputeOperands call_vm call_instruction = Ok Operands_zero /\
  (forall Sub Div,
     DeduceOp0 Sub Div call_vm call_instruction
       (Some (MRelocatable (NewRelocatable 1 2))) (Some (MInt (FeltFromUint64 4)))
     = Ok (Some (MRelocatable (NewRelocatable 0 2)), None)).
Proof.
  split; [reflexivity |]. split; [reflexivity |]. split; [reflexivity |].
  intros Sub Div. reflexivity.
Qed.

(** [DeduceOp1] returns whenever the instruction is not an [AssertEq] with
    res-logic [Mul], provided [Sub] itself returns. *)
Lemma DeduceOp1_returns_outside_Mul Sub Div (vm : VirtualMachine) (i : Instruction)
  (dst op0 : option MaybeRelocatable) :
  (forall a b, Sub a b <> Panic) ->
  InstrResLogic i <> ResMul ->
  DeduceOp1 Sub Div vm i dst op0 <> Panic.
Proof.
  intros HSub Hres. unfold DeduceOp1.
  destruct (InstrOpcode i); try discriminate.
  destruct (InstrResLogic i); try discriminate; try congruence.
  destruct op0 as [o0 |], dst as [d |]; try discriminate.
  simpl. specialize (HSub d o0). destruct (Sub d o0); simpl; congruence.
Qed.

(** With both pointers present the [Mul] branch returns as well. *)
Lemma DeduceOp1_Mul_present Sub Div (vm : VirtualMachine) (i : Instruction)
  (d o0 : MaybeRelocatable) :
  InstrOpcode i = AssertEq -> InstrResLogic i = ResMul ->
  DeduceOp1 Sub Div vm i (Some d) (Some o0) <> Panic.
Proof.
  intros Hop Hres. unfold DeduceOp1. rewrite Hop, Hres. simpl.
  destruct (MaybeRelocatable_GetFelt d) as [df db].
  destruct (MaybeRelocatable_GetFelt o0) as [o0f o0b].
  destruct (db && o0b && negb (Felt_IsZero o0f)); discriminate.
Qed.

(** C9, at the inputs where the code departs from it. For an [AssertEq]
    with res-logic [Mul], a nil [dst] or a nil [op0] makes [DeduceOp1]
    panic on the nil pointer; [DeduceOp0], which checks its pointers,
    returns no deduction for the same instruction. *)
Theorem DeduceOp1_Mul_nil_pointer_panics :
  forall Sub Div (vm : VirtualMachine) (present : MaybeRelocatable)
         (other : option MaybeRelocatable),
    DeduceOp1 Sub Div vm mul_assert_instruction None other = Panic /\
    DeduceOp1 Sub Div vm mul_assert_instruction (Some present) None = Panic /\
    DeduceOp0 Sub Div vm mul_assert_instruction None other = Ok (None, None) /\
    DeduceOp0 Sub Div vm mul_assert_instruction (Some present) None = Ok (None, None).
Proof.
  intros Sub Div vm present other. repeat split; try reflexivity.
  unfold DeduceOp1. simpl. destruct (MaybeRelocatable_GetFelt present). reflexivity.
Qed.

(** ** The pedersen runner *)

Section PedersenFacts.

Variable PedersenHash : Felt -> Felt -> Felt.

Lemma Pedersen_other_offsets (p : PedersenBuiltinRunner) (address : Relocatable) (mem : Memory) :
  Offset address mod 3 <> 2 ->
  PedersenBuiltinRunner_DeduceMemoryCell PedersenHash p address mem = Ok (p, None).
Proof.
  intros H. unfold PedersenBuiltinRunner_DeduceMemoryCell, PEDERSEN_CELLS_PER_INSTANCE.
  destruct (Z.eqb_spec (Offset address mod 3) 2); [contradiction | reflexivity].
Qed.

(** The slice of verified addresses is read at [address.Offset] before it
    is grown: a runner whose slice is not longer than the offset panics. *)
Lemma Pedersen_short_slice_panics (p : PedersenBuiltinRunner) (address : Relocatable)
  (mem : Memory) :
  Offset address mod 3 = 2 ->
  Z.of_nat (length (verified_addresses p)) <= Offset address ->
  PedersenBuiltinRunner_DeduceMemoryCell PedersenHash p address mem = Panic.
Proof.
  intros Hmod Hlen. unfold PedersenBuiltinRunner_DeduceMemoryCell, PEDERSEN_CELLS_PER_INSTANCE.
  rewrite Hmod. simpl. unfold slice_index.
  destruct (Z.ltb_spec (Offset address) 0); [reflexivity |].
  rewrite lookup_ge_None_2 by lia. reflexivity.
Qed.

(** With a slice that is long enough, the hash is taken with the cell at
    offset [3k + 1] as first argument and the cell at offset [3k] as
    second argument. *)
Lemma Pedersen_argument_order (p : PedersenBuiltinRunner) (seg off : Z) (mem : Memory)
  (a b : Felt) :
  is_uint off -> off mod 3 = 2 ->
  verified_addresses p !! Z.to_nat off = Some false ->
  Data mem !! NewRelocatable seg (off - 2) = Some (MInt a) ->
  Data mem !! NewRelocatable seg (off - 1) = Some (MInt b) ->
  PedersenBuiltinRunner_DeduceMemoryCell PedersenHash p (NewRelocatable seg off) mem
  = Ok (mkPedersenBuiltinRunner (pedersen_base p) (pedersen_included p)
          (<[Z.to_nat off := false]> (verified_addresses p)),
        Some (MInt (PedersenHash b a))).
Proof.
  unfold is_uint, UINT_MOD. intros Hu Hmod Hv Ha Hb.
  assert (Hge : 2 <= off).
  { pose proof (Z.div_mod off 3 ltac:(lia)).
    assert (0 <= off / 3) by (apply Z.div_pos; lia). lia. }
  pose proof (lookup_lt_Some _ _ _ Hv) as Hlen.
  unfold PedersenBuiltinRunner_DeduceMemoryCell, PEDERSEN_CELLS_PER_INSTANCE. simpl.
  rewrite Hmod. simpl. unfold slice_index.
  destruct (Z.ltb_spec off 0); [lia |]. rewrite Hv. simpl.
  unfold uint_sub, UINT_MOD. rewrite !Z.mod_small by lia.
  unfold Memory_GetFelt, Memory_Get. rewrite Hb. simpl. rewrite Ha. simpl.
  assert (Hgrown : (Z.of_nat (length (verified_addresses p)) <=? int_of_uint off) = false).
  { apply Z.leb_gt. unfold int_of_uint, UINT_MOD. destruct (off <? 2 ^ 63); lia. }
  rewrite Hgrown. unfold slice_assign.
  destruct (Z.leb_spec 0 off); [| lia].
  destruct (Z.ltb_spec off (Z.of_nat (length (verified_addresses p)))); [| lia].
  reflexivity.
Qed.

End PedersenFacts.

(** C2, at the input where the code departs from it. A runner made by
    [NewPedersenBuiltinRunner] has an empty slice of verified addresses;
    asked for the cell at offset 2 (k = 0) of its segment, whatever the
    memory holds, [DeduceMemoryCell] panics on the slice index instead of
    returning the hash. At the offsets 0 and 1 it returns no value. *)
Theorem Pedersen_DeduceMemoryCell_new_runner_panics :
  forall (PedersenHash : Felt -> Felt -> Felt) (included : bool) (seg : Z) (mem : Memory),
    PedersenBuiltinRunner_DeduceMemoryCell PedersenHash (NewPedersenBuiltinRunner included)
      (NewRelocatable seg 2) mem = Panic /\
    PedersenBuiltinRunner_DeduceMemoryCell PedersenHash (NewPedersenBuiltinRunner included)
      (NewRelocatable seg 0) mem = Ok (NewPedersenBuiltinRunner included, None) /\
    PedersenBuiltinRunner_DeduceMemoryCell PedersenHash (NewPedersenBuiltinRunner included)
      (NewRelocatable seg 1) mem = Ok (NewPedersenBuiltinRunner included, None).
Proof. intros. repeat split; reflexivity. Qed.

(** ** The range-check validation rule *)

Lemma range_check_bound : N_PARTS * INNER_RC_BOUND_SHIFT = 128.
Proof. reflexivity. Qed.

(** C5. For an address whose cell holds [v]: the rule validates exactly
    that address if and only if [v] is a Felt of at most 128 bits; a
    Relocatable gives the not-a-field-element error, a Felt of more than
    128 bits the out-of-bounds error. *)
Theorem RangeCheckValidationRule_present_cell (mem : Memory) (address : Relocatable)
  (v : MaybeRelocatable) (Hv : Data mem !! address = Some v) :
  (forall validated, RangeCheckValidationRule mem address = Ok validated ->
                     validated = [address]) /\
  (RangeCheckValidationRule mem address = Ok [address] <->
   exists f, v = MInt f /\ Felt_Bits f <= 128) /\
  (forall r, v = MRelocatable r ->
             RangeCheckValidationRule mem address = Err (NotAFeltError address v)) /\
  (forall f, v = MInt f -> 128 < Felt_Bits f ->
             RangeCheckValidationRule mem address = Err (OutsideBoundsError f)).
Proof.
  unfold RangeCheckValidationRule, Memory_Get. rewrite Hv. simpl.
  rewrite range_check_bound.
  destruct v as [f | r |]; simpl.
  - destruct (Z.leb_spec (Felt_Bits f) 128) as [Hle | Hgt].
    + split; [intros l [= <-]; reflexivity |].
      split; [split; [intros _; exists f; auto | reflexivity] |].
      split; [discriminate |]. intros f' [= <-] H. lia.
    + split; [discriminate |].
      split; [split; [discriminate | intros (f' & [= <-] & H); lia] |].
      split; [discriminate |]. intros f' [= <-] _. reflexivity.
  - split; [discriminate |].
    split; [split; [discriminate | intros (f & Hf & _); discriminate] |].
    split; [reflexivity | discriminate].
  - split; [discriminate |].
    split; [split; [discriminate | intros (f & Hf & _); discriminate] |].
    split; discriminate.
Qed.

Lemma RangeCheckValidationRule_present_cell_witness :
  RangeCheckValidationRule
    (mkMemory (<[NewRelocatable 2 0 := MInt (felt_of_Z (2 ^ 129))]> ∅)) (NewRelocatable 2 0)
  = Err (OutsideBoundsError (felt_of_Z (2 ^ 129))).
Proof.
  assert (Hv : Data (mkMemory (<[NewRelocatable 2 0 := MInt (felt_of_Z (2 ^ 129))]> ∅))
               !! NewRelocatable 2 0 = Some (MInt (felt_of_Z (2 ^ 129)))) by reflexivity.
  apply (RangeCheckValidationRule_present_cell _ _ _ Hv).
  - reflexivity.
  - vm_compute. reflexivity.
Defined.

Example RangeCheck_128_bits :
  RangeCheckValidationRule
    (mkMemory (<[NewRelocatable 2 0 := MInt (felt_of_Z (2 ^ 128 - 1))]> ∅)) (NewRelocatable 2 0)
  = Ok [NewRelocatable 2 0].
Proof. vm_compute. reflexivity. Qed.

(** ** Dictionaries *)

Lemma lookup_total_Some (store : MapStore) (loc : nat)
  (m : gmap MaybeRelocatable MaybeRelocatable) :
  store !! loc = Some m -> store !!! loc = m.
Proof. intros H. rewrite lookup_total_alt, H. reflexivity. Qed.

(** A map in which a key is found is not the nil map. *)
Lemma lookup_total_key_Some (store : MapStore) (loc : nat) (key val : MaybeRelocatable) :
  (store !!! loc) !! key = Some val -> store !! loc = Some (store !!! loc).
Proof.
  rewrite lookup_total_alt. destruct (store !! loc) as [m |]; simpl; [reflexivity |].
  rewrite lookup_empty. discriminate.
Qed.

Lemma map_assign_Some (loc : nat) (key val : MaybeRelocatable) (store : MapStore)
  (m : gmap MaybeRelocatable MaybeRelocatable) :
  store !! loc = Some m ->
  map_assign loc key val store = Ok (<[loc := <[key := val]> m]> store).
Proof. intros H. unfold map_assign. rewrite H. reflexivity. Qed.

Lemma Dictionary_Get_present (d : Dictionary) (key val : MaybeRelocatable) (store : MapStore) :
  (store !!! dict d) !! key = Some val ->
  Dictionary_Get d key store = Ok (Some val, store).
Proof. intros H. unfold Dictionary_Get. rewrite H. reflexivity. Qed.

(** What [Get] does to the store, in all cases: nothing, or the default
    value bound to a key that was absent; with a default value, an absent
    key and a nil map it panics. *)
Lemma Dictionary_Get_cases (d : Dictionary) (key : MaybeRelocatable) (store : MapStore) :
  (exists val, (store !!! dict d) !! key = Some val /\
               Dictionary_Get d key store = Ok (Some val, store)) \/
  (exists dv, (store !!! dict d) !! key = None /\ defaultValue d = Some dv /\
              store !! dict d = Some (store !!! dict d) /\
              Dictionary_Get d key store
              = Ok (Some dv, <[dict d := <[key := dv]> (store !!! dict d)]> store)) \/
  ((store !!! dict d) !! key = None /\ defaultValue d = None /\
   Dictionary_Get d key store = Ok (None, store)) \/
  (store !! dict d = None /\ (exists dv, defaultValue d = Some dv) /\
   Dictionary_Get d key store = Panic).
Proof.
  unfold Dictionary_Get.
  destruct ((store !!! dict d) !! key) as [val |] eqn:Hk.
  - left. exists val. auto.
  - destruct (defaultValue d) as [dv |] eqn:Hd.
    + unfold map_assign. destruct (store !! dict d) as [m |] eqn:Hm.
      * right. left. exists dv. rewrite (lookup_total_Some _ _ _ Hm). simpl. auto.
      * right. right. right. simpl. eauto.
    + right. right. left. auto.
Qed.

(** A successful [Get] that returns a value leaves a map at the location
    of the dictionary. *)
Lemma Dictionary_Get_leaves_map (d : Dictionary) (key val : MaybeRelocatable)
  (store store1 : MapStore) :
  Dictionary_Get d key store = Ok (Some val, store1) ->
  store1 !! dict d = Some (store1 !!! dict d).
Proof.
  intros H.
  destruct (Dictionary_Get_cases d key store)
    as [(v & Hk & Hg) | [(dv & Hk & Hd & Hm & Hg) | [(Hk & Hd & Hg) | (Hm & _ & Hg)]]];
    rewrite Hg in H; inversion H; subst.
  - apply (lookup_total_key_Some _ _ _ _ Hk).
  - rewrite lookup_total_insert_eq. apply lookup_insert_eq.
Qed.

(** C10 as stated fails on a dictionary whose backing map is nil: created
    with a default value over the nil map (no map at location 0 of the
    store), [Get] on a key, necessarily absent, panics at the assignment
    of the default instead of returning it. *)
Lemma Dictionary_Get_nil_map_panics :
  Dictionary_Get (NewDefaultDictionary (Some (MInt (FeltFromUint64 17))) 0)
    (MInt (FeltFromUint64 5)) ∅ = Panic.
Proof. reflexivity. Qed.

(** C10, amended. [Get] on an absent key of a dictionary created with a
    default value over a map that is not nil binds the key to the default
    in the backing map and returns the default, and the key is present
    from then on; for a dictionary created without a default value (its
    map nil or not) it returns nil and leaves the map as it was. *)
Theorem Dictionary_Get_absent_key (loc : nat) (key : MaybeRelocatable) (store : MapStore)
  (Habsent : (store !!! loc) !! key = None) :
  (forall (dv : MaybeRelocatable) (m : gmap MaybeRelocatable MaybeRelocatable),
     store !! loc = Some m ->
     let d := NewDefaultDictionary (Some dv) loc in
     let store' := <[loc := <[key := dv]> m]> store in
     Dictionary_Get d key store = Ok (Some dv, store') /\
     (store' !!! loc) !! key = Some dv /\
     (forall other, other <> key -> (store' !!! loc) !! other = m !! other) /\
     Dictionary_Get d key store' = Ok (Some dv, store')) /\
  Dictionary_Get (NewDictionary loc) key store = Ok (None, store) /\
  Dictionary_Get (NewDefaultDictionary None loc) key store = Ok (None, store).
Proof.
  split.
  - intros dv m Hm d store'.
    assert (Hk : (store' !!! loc) !! key = Some dv).
    { unfold store'. rewrite lookup_total_insert_eq. apply lookup_insert_eq. }
    split.
    { unfold Dictionary_Get, d. simpl. rewrite Habsent.
      rewrite (map_assign_Some loc key dv store m Hm). reflexivity. }
    split; [exact Hk |].
    split.
    { intros other Hne. unfold store'. rewrite lookup_total_insert_eq.
      apply lookup_insert_ne. congruence. }
    apply Dictionary_Get_present. exact Hk.
  - split; unfold Dictionary_Get; simpl; rewrite Habsent; reflexivity.
Qed.

Lemma Dictionary_Get_absent_key_witness :
  Dictionary_Get (NewDefaultDictionary (Some (MInt (FeltFromUint64 17))) 0)
    (MInt (FeltFromUint64 5)) {[ 0%nat := ∅ ]}
  = Ok (Some (MInt (FeltFromUint64 17)),
        <[0%nat := {[MInt (FeltFromUint64 5) := MInt (FeltFromUint64 17)]}]>
          {[ 0%nat := ∅ ]}) /\
  Dictionary_Get (NewDictionary 0) (MInt (FeltFromUint64 5)) {[ 0%nat := ∅ ]}
  = Ok (None, {[ 0%nat := ∅ ]}).
Proof.
  assert (Habsent : (({[ 0%nat := ∅ ]} : MapStore) !!! 0%nat) !! MInt (FeltFromUint64 5) = None)
    by reflexivity.
  assert (Hmap : ({[ 0%nat := ∅ ]} : MapStore) !! 0%nat = Some ∅) by reflexivity.
  pose proof (Dictionary_Get_absent_key 0 (MInt (FeltFromUint64 5)) {[ 0%nat := ∅ ]} Habsent)
    as (Hdefault & Hnone & _).
  split; [exact (proj1 (Hdefault (MInt (FeltFromUint64 17)) ∅ Hmap)) | exact Hnone].
Defined.

(** ** The dict manager and the dictionary hints *)

Lemma GetTracker_Ok (d : DictManager) (dict_ptr : Relocatable) (tracker : DictTracker) :
  DictManager_GetTracker d dict_ptr = Ok tracker ->
  trackers d !! SegmentIndex dict_ptr = Some tracker /\ currentPtr tracker = dict_ptr.
Proof.
  unfold DictManager_GetTracker.
  destruct (trackers d !! SegmentIndex dict_ptr) as [t |]; [| discriminate].
  destruct (decide (currentPtr t = dict_ptr)) as [E | N]; [| discriminate].
  intros [= <-]. auto.
Qed.

(** A pointer other than the tracker's [currentPtr] is a Dict Error. *)
Lemma GetTracker_wrong_pointer (d : DictManager) (dict_ptr : Relocatable)
  (tracker : DictTracker) :
  trackers d !! SegmentIndex dict_ptr = Some tracker ->
  currentPtr tracker <> dict_ptr ->
  DictManager_GetTracker d dict_ptr
  = Err (Errorf "Dict Error: Wrong dict pointer supplied. Got %v, expected %v"
           [ArgRelocatable dict_ptr; ArgRelocatable (currentPtr tracker)]).
Proof.
  intros Ht Hne. unfold DictManager_GetTracker. rewrite Ht.
  destruct (decide (currentPtr tracker = dict_ptr)); [contradiction | reflexivity].
Qed.

Lemma tracker_GetValue_scopes (tracker : DictTracker) (key : MaybeRelocatable)
  (st : HintState) :
  hScopes (snd (tracker_GetValue tracker key st)) = hScopes st.
Proof.
  unfold tracker_GetValue.
  destruct (DictTracker_GetValue tracker key (hStore st)) as [[[v |] store] | e |];
    reflexivity.
Qed.

Lemma tracker_InsertValue_scopes (tracker : DictTracker) (key val : MaybeRelocatable)
  (st : HintState) :
  hScopes (snd (tracker_InsertValue tracker key val st)) = hScopes st.
Proof.
  unfold tracker_InsertValue.
  destruct (DictTracker_InsertValue tracker key val (hStore st)); reflexivity.
Qed.

(** After a [Get] that returned a value, an [Insert] finds a map to
    assign to. *)
Lemma Dictionary_Insert_after_Get (d : Dictionary) (key val new_value : MaybeRelocatable)
  (store store1 : MapStore) :
  Dictionary_Get d key store = Ok (Some val, store1) ->
  Dictionary_Insert d key new_value store1
  = Ok (<[dict d := <[key := new_value]> (store1 !!! dict d)]> store1).
Proof.
  intros H. unfold Dictionary_Insert.
  apply map_assign_Some. apply (Dictionary_Get_leaves_map d key val store store1 H).
Qed.

Lemma ids_Insert_unchecked_scopes (ids : IdsManager) (name : string)
  (val : MaybeRelocatable) (st : HintState) :
  hScopes (snd (ids_Insert_unchecked ids name val st)) = hScopes st.
Proof.
  unfold ids_Insert_unchecked.
  destruct (IdsManager_Insert ids name val (hVm st)); reflexivity.
Qed.

(** [dictRead] leaves the execution scopes, and with them the trackers of
    the dict manager, exactly as they were: the pointer is advanced on the
    copy that [GetTracker] returned. *)
Lemma dictRead_keeps_scopes (ids : IdsManager) (st : HintState) :
  hScopes (snd (dictRead ids st)) = hScopes st.
Proof.
  unfold dictRead, hbind, fetch_dict_manager, hread, hret.
  destruct (FetchDictManager (hScopes st)) as [dm |]; [| reflexivity].
  destruct (IdsManager_GetRelocatable ids "dict_ptr" (hVm st)) as [p | |]; try reflexivity.
  destruct (IdsManager_Get ids "key" (hVm st)) as [k | |]; try reflexivity.
  destruct (DictManager_GetTracker dm p) as [t | |]; try reflexivity.
  pose proof (tracker_GetValue_scopes (advance_CurrentPtr t) k st) as Hg.
  destruct (tracker_GetValue (advance_CurrentPtr t) k st) as [[v | e |] st1];
    simpl in Hg; try exact Hg.
  pose proof (ids_Insert_unchecked_scopes ids "value" v st1) as Hi.
  destruct (ids_Insert_unchecked ids "value" v st1) as [[u | e |] st2];
    simpl in Hi; simpl; congruence.
Qed.

(** C3, at the input where the code departs from it. The tracker of
    segment 2 points at [(2, 0)] and the hint is called with
    [ids.dict_ptr = (2, 0)] and key 1, bound to 10. [dictRead] succeeds
    and sets [ids.value] to 10, but the tracker that the next hint fetches
    still points at [(2, 0)]: the pointer advanced by 3 is refused with a
    Dict Error and the old pointer is accepted again. *)
Theorem dictRead_pointer_not_advanced :
  fst (dictRead sample_ids state_key_bound) = Ok tt /\
  Data (vmMemory (hVm (snd (dictRead sample_ids state_key_bound))))
    !! NewRelocatable 1 2 = Some (MInt (FeltFromUint64 10)) /\
  next_fetch (snd (dictRead sample_ids state_key_bound)) (NewRelocatable 2 3)
  = Err (Errorf "Dict Error: Wrong dict pointer supplied. Got %v, expected %v"
           [ArgRelocatable (NewRelocatable 2 3); ArgRelocatable (NewRelocatable 2 0)]) /\
  next_fetch (snd (dictRead sample_ids state_key_bound)) (NewRelocatable 2 0)
  = Ok sample_tracker.
Proof. repeat split; vm_compute; reflexivity. Qed.

Lemma dictUpdate_keeps_scopes (ids : IdsManager) (st : HintState) :
  hScopes (snd (dictUpdate ids st)) = hScopes st.
Proof.
  unfold dictUpdate, hbind, fetch_dict_manager, hread, hret, hfail.
  destruct (FetchDictManager (hScopes st)) as [dm |]; [| reflexivity].
  destruct (IdsManager_GetRelocatable ids "dict_ptr" (hVm st)) as [p | |]; try reflexivity.
  destruct (IdsManager_Get ids "key" (hVm st)) as [k | |]; try reflexivity.
  destruct (IdsManager_Get ids "new_value" (hVm st)) as [nv | |]; try reflexivity.
  destruct (IdsManager_Get ids "prev_value" (hVm st)) as [pv | |]; try reflexivity.
  destruct (DictManager_GetTracker dm p) as [t | |]; try reflexivity.
  pose proof (tracker_GetValue_scopes t k st) as Hg.
  destruct (tracker_GetValue t k st) as [[v | e |] st1]; simpl in Hg; try exact Hg.
  destruct (decide (pv <> v)); simpl; [exact Hg |].
  pose proof (tracker_InsertValue_scopes t k nv st1) as Hi.
  destruct (tracker_InsertValue t k nv st1) as [[u | e |] st2]; simpl in Hi; simpl;
    congruence.
Qed.

(** C4 as stated fails. With the dictionary of default value 0 empty, the
    update of key 1 with previous value 99 fails with the message of the
    claim (current value 0), yet the map is not unchanged: key 1 is now
    bound to 0. With [1 -> 10] and previous value 10 the update succeeds
    and stores 11, yet the tracker found by the next hint still points at
    [(2, 0)]. *)
Lemma dictUpdate_map_and_pointer_counterexample :
  (fst (dictUpdate sample_ids state_key_absent)
   = Err (Errorf "Wrong previous value in dict. Got %v, expected %v."
            [ArgMaybeRelocatable (MInt (FeltFromUint64 0));
             ArgMaybeRelocatable (MInt (FeltFromUint64 99))]) /\
   (hStore state_key_absent !!! 0%nat) !! MInt (FeltFromUint64 1) = None /\
   (hStore (snd (dictUpdate sample_ids state_key_absent)) !!! 0%nat)
     !! MInt (FeltFromUint64 1) = Some (MInt (FeltFromUint64 0))) /\
  (fst (dictUpdate sample_ids state_key_bound_prev_10) = Ok tt /\
   (hStore (snd (dictUpdate sample_ids state_key_bound_prev_10)) !!! 0%nat)
     !! MInt (FeltFromUint64 1) = Some (MInt (FeltFromUint64 11)) /\
   next_fetch (snd (dictUpdate sample_ids state_key_bound_prev_10)) (NewRelocatable 2 0)
   = Ok sample_tracker /\
   next_fetch (snd (dictUpdate sample_ids state_key_bound_prev_10)) (NewRelocatable 2 3)
   = Err (Errorf "Dict Error: Wrong dict pointer supplied. Got %v, expected %v"
            [ArgRelocatable (NewRelocatable 2 3); ArgRelocatable (NewRelocatable 2 0)])).
Proof. repeat split; vm_compute; reflexivity. Qed.

(** C4, amended. Let [current] be the tracker's value for [ids.key], read
    through [GetValue] (which binds an absent key of a dictionary with a
    default value to that default, and changes nothing else). If
    [ids.prev_value] differs from [current], the hint fails with
    "Wrong previous value in dict. Got <current>, expected <prev>.", and
    the tracker pointer, the memory and the map as [GetValue] left it are
    unchanged; if they are equal, the hint succeeds and [ids.new_value] is
    stored under [ids.key]. *)
Theorem dictUpdate_checks_previous_value (ids : IdsManager) (st : HintState)
  (dictManager : DictManager) (dict_ptr : Relocatable)
  (key new_value prev_value current : MaybeRelocatable)
  (tracker : DictTracker) (store1 : MapStore)
  (Hmanager : FetchDictManager (hScopes st) = Some dictManager)
  (Hptr : IdsManager_GetRelocatable ids "dict_ptr" (hVm st) = Ok dict_ptr)
  (Hkey : IdsManager_Get ids "key" (hVm st) = Ok key)
  (Hnew : IdsManager_Get ids "new_value" (hVm st) = Ok new_value)
  (Hprev : IdsManager_Get ids "prev_value" (hVm st) = Ok prev_value)
  (Htracker : DictManager_GetTracker dictManager dict_ptr = Ok tracker)
  (Hcurrent : DictTracker_GetValue tracker key (hStore st) = Ok (Some current, store1)) :
  let loc := dict (data tracker) in
  (((hStore st !!! loc) !! key = Some current /\ store1 = hStore st) \/
   ((hStore st !!! loc) !! key = None /\ defaultValue (data tracker) = Some current /\
    store1 = <[loc := <[key := current]> (hStore st !!! loc)]> (hStore st))) /\
  (prev_value <> current ->
   dictUpdate ids st
   = (Err (Errorf "Wrong previous value in dict. Got %v, expected %v."
             [ArgMaybeRelocatable current; ArgMaybeRelocatable prev_value]),
      mkHintState (hScopes st) store1 (hVm st))) /\
  (prev_value = current ->
   fst (dictUpdate ids st) = Ok tt /\
   hStore (snd (dictUpdate ids st)) = <[loc := <[key := new_value]> (store1 !!! loc)]> store1 /\
   (hStore (snd (dictUpdate ids st)) !!! loc) !! key = Some new_value /\
   hVm (snd (dictUpdate ids st)) = hVm st).
Proof.
  intros loc. split.
  { unfold DictTracker_GetValue in Hcurrent. fold loc.
    destruct (Dictionary_Get_cases (data tracker) key (hStore st))
      as [(val & Hk & Hg) | [(dv & Hk & Hd & Hm & Hg) | [(Hk & Hd & Hg) | (Hm & _ & Hg)]]];
      rewrite Hg in Hcurrent; inversion Hcurrent; subst.
    - left. auto.
    - right. auto. }
  pose proof (Dictionary_Insert_after_Get (data tracker) key current new_value
                (hStore st) store1 Hcurrent) as Hinsert.
  fold loc in Hinsert.
  assert (Hrun : dictUpdate ids st
                 = if decide (prev_value <> current)
                   then (Err (Errorf "Wrong previous value in dict. Got %v, expected %v."
                                [ArgMaybeRelocatable current; ArgMaybeRelocatable prev_value]),
                         mkHintState (hScopes st) store1 (hVm st))
                   else (Ok tt,
                         mkHintState (hScopes st)
                           (<[loc := <[key := new_value]> (store1 !!! loc)]> store1)
                           (hVm st))).
  { unfold dictUpdate, hbind, fetch_dict_manager, hread, hret, hfail.
    rewrite Hmanager, Hptr, Hkey, Hnew, Hprev, Htracker.
    unfold tracker_GetValue. rewrite Hcurrent.
    destruct (decide (prev_value <> current)); [reflexivity |].
    unfold tracker_InsertValue, DictTracker_InsertValue. simpl.
    rewrite Hinsert. reflexivity. }
  split.
  - intros Hne. rewrite Hrun.
    destruct (decide (prev_value <> current)); [reflexivity | contradiction].
  - intros Heq. rewrite Hrun.
    destruct (decide (prev_value <> current)); [contradiction |]. simpl.
    repeat split. rewrite lookup_total_insert_eq. apply lookup_insert_eq.
Qed.

Lemma dictUpdate_checks_previous_value_witness :
  dictUpdate sample_ids state_key_bound
  = (Err (Errorf "Wrong previous value in dict. Got %v, expected %v."
            [ArgMaybeRelocatable (MInt (FeltFromUint64 10));
             ArgMaybeRelocatable (MInt (FeltFromUint64 99))]),
     state_key_bound).
Proof.
  assert (Hne : MInt (FeltFromUint64 99) <> MInt (FeltFromUint64 10))
    by (vm_compute; discriminate).
  exact (proj1 (proj2 (dictUpdate_checks_previous_value sample_ids state_key_bound
                         (mkDictManager {[ 2 := sample_tracker ]}) (NewRelocatable 2 0)
                         (MInt (FeltFromUint64 1)) (MInt (FeltFromUint64 11))
                         (MInt (FeltFromUint64 99)) (MInt (FeltFromUint64 10))
                         sample_tracker (hStore state_key_bound)
                         ltac:(reflexivity) ltac:(reflexivity) ltac:(reflexivity)
                         ltac:(reflexivity) ltac:(reflexivity) ltac:(reflexivity)
                         ltac:(reflexivity))) Hne).
Defined.

(** * Further properties of the code *)

(** ** Equality and offsets of relocatable values *)

Lemma Felt_eqb_eq (a b : Felt) : Felt_eqb a b = true <-> a = b.
Proof.
  destruct a as [a0 a1 a2 a3], b as [b0 b1 b2 b3]. unfold Felt_eqb. simpl.
  rewrite !andb_true_iff, !Z.eqb_eq. split.
  - intros [[[-> ->] ->] ->]. reflexivity.
  - intros [= -> -> -> ->]. auto.
Qed.

Lemma Relocatable_IsEqual_eq (r r1 : Relocatable) : Relocatable_IsEqual r r1 = true <-> r = r1.
Proof.
  destruct r as [s o], r1 as [s1 o1]. unfold Relocatable_IsEqual. simpl.
  rewrite andb_true_iff, !Z.eqb_eq. split.
  - intros [-> ->]. reflexivity.
  - intros [= -> ->]. auto.
Qed.

(** X1. [IsEqual] on memory values is structural equality on two Felts
    and on two addresses, and a Felt never equals an address; the zero
    value [MaybeRelocatable{}], however, is equal to the address (0, 0). *)
Theorem MaybeRelocatable_IsEqual_structural :
  (forall a b : Felt, MaybeRelocatable_IsEqual (MInt a) (MInt b) = true <-> a = b) /\
  (forall r s : Relocatable,
     MaybeRelocatable_IsEqual (MRelocatable r) (MRelocatable s) = true <-> r = s) /\
  (forall (a : Felt) (r : Relocatable),
     MaybeRelocatable_IsEqual (MInt a) (MRelocatable r) = false /\
     MaybeRelocatable_IsEqual (MRelocatable r) (MInt a) = false) /\
  MaybeRelocatable_IsEqual MNil (MRelocatable (NewRelocatable 0 0)) = true.
Proof.
  split; [intros a b; apply Felt_eqb_eq |].
  split; [intros r s; apply Relocatable_IsEqual_eq |].
  split; [intros a r; split; reflexivity | reflexivity].
Qed.

(** X2. [SubUint] fails exactly when the offset is smaller than the amount;
    otherwise it keeps the segment and subtracts. After an [AddUint] that
    does not overflow, [SubUint] of the same amount gives the address back. *)
Theorem SubUint_after_AddUint (r : Relocatable) (n : Z)
  (Hoff : is_uint (Offset r)) (Hn : is_uint n) :
  (Offset r < n -> Relocatable_SubUint r n = Err (New "RelocatableSubUsizeNegOffset")) /\
  (n <= Offset r ->
   Relocatable_SubUint r n = Ok (NewRelocatable (SegmentIndex r) (Offset r - n))) /\
  (is_uint (Offset r + n) ->
   (r' <- Relocatable_AddUint r n ;; Relocatable_SubUint r' n) = Ok r).
Proof.
  unfold is_uint, UINT_MOD in *. destruct r as [s o]. simpl in *.
  unfold Relocatable_AddUint, Relocatable_SubUint, uint_add, uint_sub, UINT_MOD. simpl.
  split; [| split].
  - intros Hlt. destruct (Z.ltb_spec o n); [reflexivity | lia].
  - intros Hle. destruct (Z.ltb_spec o n); [lia |].
    rewrite Z.mod_small by lia. reflexivity.
  - intros Hfit. rewrite (Z.mod_small (o + n)) by lia.
    destruct (Z.ltb_spec (o + n) n); [lia |].
    replace (o + n - n) with o by lia. rewrite Z.mod_small by lia. reflexivity.
Qed.

Lemma SubUint_after_AddUint_witness :
  Relocatable_SubUint (NewRelocatable 1 (2 ^ 64 - 1)) (2 ^ 64 - 1) = Ok (NewRelocatable 1 0) /\
  (r' <- Relocatable_AddUint (NewRelocatable 1 7) 5 ;; Relocatable_SubUint r' 5)
  = Ok (NewRelocatable 1 7).
Proof.
  split.
  - apply (proj1 (proj2 (SubUint_after_AddUint (NewRelocatable 1 (2 ^ 64 - 1)) (2 ^ 64 - 1)
                           ltac:(unfold is_uint, UINT_MOD; simpl; lia)
                           ltac:(unfold is_uint, UINT_MOD; simpl; lia)))).
    simpl. lia.
  - apply (proj2 (proj2 (SubUint_after_AddUint (NewRelocatable 1 7) 5
                           ltac:(unfold is_uint, UINT_MOD; simpl; lia)
                           ltac:(unfold is_uint, UINT_MOD; simpl; lia)))).
    unfold is_uint, UINT_MOD; simpl; lia.
Defined.

(** ** Opcode assertions *)

(** X3. For an [AssertEq] instruction whose [dst] and [res] are Felts or
    addresses, [OpcodeAssertions] returns nil exactly when [res] equals
    [dst]; a different [res] gives [DiffAssertValues] and a nil [res]
    gives [UnconstrainedResAssertEq]. *)
Theorem OpcodeAssertions_AssertEq (vm : VirtualMachine) (i : Instruction)
  (dst op0 op1 : MaybeRelocatable)
  (Hop : InstrOpcode i = AssertEq) (Hdst : dst <> MNil) :
  OpcodeAssertions vm i (mkOperands dst None op0 op1) = Err (New "UnconstrainedResAssertEq") /\
  (forall res, res <> MNil ->
     (OpcodeAssertions vm i (mkOperands dst (Some res) op0 op1) = Ok tt <-> res = dst) /\
     (res <> dst ->
      OpcodeAssertions vm i (mkOperands dst (Some res) op0 op1) = Err (New "DiffAssertValues"))).
Proof.
  unfold OpcodeAssertions. rewrite Hop. simpl. split; [reflexivity |].
  intros res Hres.
  assert (Heq : MaybeRelocatable_IsEqual res dst = true <-> res = dst).
  { destruct res as [a | r |], dst as [b | s |]; try contradiction.
    - change (MaybeRelocatable_IsEqual (MInt a) (MInt b)) with (Felt_eqb a b).
      rewrite Felt_eqb_eq. split; congruence.
    - split; [discriminate | discriminate].
    - split; [discriminate | discriminate].
    - change (MaybeRelocatable_IsEqual (MRelocatable r) (MRelocatable s))
        with (Relocatable_IsEqual r s).
      rewrite Relocatable_IsEqual_eq. split; congruence. }
  destruct (MaybeRelocatable_IsEqual res dst) eqn:E; simpl.
  - split; [split; [intros _; apply Heq; reflexivity | reflexivity] |].
    intros Hne. exfalso. apply Hne, Heq. reflexivity.
  - split; [split; [discriminate | intros H; apply Heq in H; discriminate] | reflexivity].
Qed.

Lemma OpcodeAssertions_AssertEq_witness :
  OpcodeAssertions mul_vm mul_assert_instruction
    (mkOperands (MInt (FeltFromUint64 12)) (Some (MInt (FeltFromUint64 12)))
       (MInt (FeltFromUint64 3)) (MInt (FeltFromUint64 4))) = Ok tt.
Proof.
  assert (Hdst : MInt (FeltFromUint64 12) <> MNil) by discriminate.
  pose proof (OpcodeAssertions_AssertEq mul_vm mul_assert_instruction
                (MInt (FeltFromUint64 12)) (MInt (FeltFromUint64 3))
                (MInt (FeltFromUint64 4)) eq_refl Hdst) as [_ H].
  apply (proj1 (H (MInt (FeltFromUint64 12)) Hdst)). reflexivity.
Defined.




(** X5. The only errors [ComputeOperands] returns are those of the three
    address computations: neither a missing memory cell nor a failure of
    [ComputeRes] is ever reported. *)
Theorem ComputeOperands_error_kinds (vm : VirtualMachine) (i : Instruction) (e : error)
  (Herr : ComputeOperands vm i = Err e) :
  e = New "FailedToComputeDstAddr" \/
  e = New "FailedToComputeOp0Addr" \/
  e = New "FailedToComputeOp1Addr".
Proof.
  revert Herr. unfold ComputeOperands.
  destruct (RunContext_ComputeDstAddr _ _) as [dst_addr | |]; try discriminate;
    [| intros [= <-]; auto].
  destruct (Memory_Get (vmMemory vm) dst_addr) as [dst_op | |]; try discriminate.
  destruct (RunContext_ComputeOp0Addr _ _) as [op0_addr | |]; try discriminate;
    [| intros [= <-]; auto].
  destruct (Memory_Get (vmMemory vm) op0_addr) as [op0_op | |]; try discriminate.
  destruct (RunContext_ComputeOp1Addr _ _ _) as [op1_addr | |]; try discriminate;
    [| intros [= <-]; auto].
  destruct (Memory_Get (vmMemory vm) op1_addr) as [op1_op | |]; try discriminate.
  destruct (ComputeRes vm i op0_op op1_op); discriminate.
Qed.

Lemma ComputeOperands_error_kinds_witness :
  ComputeOperands call_vm below_segment_instruction = Err (New "FailedToComputeDstAddr") /\
  (New "FailedToComputeDstAddr" = New "FailedToComputeDstAddr" \/
   New "FailedToComputeDstAddr" = New "FailedToComputeOp0Addr" \/
   New "FailedToComputeDstAddr" = New "FailedToComputeOp1Addr").
Proof.
  assert (H : ComputeOperands call_vm below_segment_instruction
              = Err (New "FailedToComputeDstAddr")) by reflexivity.
  split; [exact H |].
  exact (ComputeOperands_error_kinds call_vm below_segment_instruction _ H).
Defined.

(** ** Register updates *)

Lemma AddFelt_segment (r r' : Relocatable) (f : Felt) :
  Relocatable_AddFelt r f = Ok r' -> SegmentIndex r' = SegmentIndex r.
Proof.
  unfold Relocatable_AddFelt.
  destruct (Felt_ToU64 _); simpl; try discriminate. intros [= <-]. reflexivity.
Qed.

Lemma AddMaybeRelocatable_segment (r r' : Relocatable) (m : MaybeRelocatable) :
  Relocatable_AddMaybeRelocatable r m = Ok r' -> SegmentIndex r' = SegmentIndex r.
Proof.
  unfold Relocatable_AddMaybeRelocatable.
  destruct (MaybeRelocatable_GetInt m) as [f ok]. destruct ok; simpl; [| discriminate].
  apply AddFelt_segment.
Qed.

Lemma UpdateFp_frame (vm : VirtualMachine) (i : Instruction) (ops : Operands) :
  let vm' := snd (UpdateFp vm i ops) in
  vmMemory vm' = vmMemory vm /\
  Pc (vmRunContext vm') = Pc (vmRunContext vm) /\
  Ap (vmRunContext vm') = Ap (vmRunContext vm) /\
  (fst (UpdateFp vm i ops) <> Ok tt -> vm' = vm).
Proof.
  unfold UpdateFp. destruct (InstrFpUpdate i); simpl; try (repeat split; congruence).
  destruct (MaybeRelocatable_GetRelocatable (Dst ops)) as [rel ok]. destruct ok; simpl.
  - repeat split; congruence.
  - destruct (MaybeRelocatable_GetFelt (Dst ops)) as [felt b].
    destruct (Relocatable_AddFelt _ felt); simpl; repeat split; congruence.
Qed.

Lemma UpdateAp_frame (vm : VirtualMachine) (i : Instruction) (ops : Operands) :
  let vm' := snd (UpdateAp vm i ops) in
  vmMemory vm' = vmMemory vm /\
  Pc (vmRunContext vm') = Pc (vmRunContext vm) /\
  Fp (vmRunContext vm') = Fp (vmRunContext vm) /\
  (fst (UpdateAp vm i ops) <> Ok tt -> vm' = vm).
Proof.
  unfold UpdateAp. destruct (InstrApUpdate i); simpl; try (repeat split; congruence).
  destruct (Res ops) as [r |]; simpl; [| repeat split; congruence].
  destruct (Relocatable_AddMaybeRelocatable _ r); simpl; repeat split; congruence.
Qed.

Lemma UpdatePc_frame (vm : VirtualMachine) (i : Instruction) (ops : Operands) :
  let vm' := snd (UpdatePc vm i ops) in
  vmMemory vm' = vmMemory vm /\
  Ap (vmRunContext vm') = Ap (vmRunContext vm) /\
  Fp (vmRunContext vm') = Fp (vmRunContext vm) /\
  (fst (UpdatePc vm i ops) <> Ok tt -> vm' = vm).
Proof.
  unfold UpdatePc. destruct (InstrPcUpdate i); simpl; try (repeat split; congruence).
  - destruct (Res ops) as [r |]; simpl; [| repeat split; congruence].
    destruct (MaybeRelocatable_GetRelocatable r) as [res ok].
    destruct ok; simpl; repeat split; congruence.
  - destruct (Res ops) as [r |]; simpl; [| repeat split; congruence].
    destruct (MaybeRelocatable_GetFelt r) as [res ok].
    destruct ok; simpl; [| repeat split; congruence].
    destruct (Relocatable_AddFelt _ res); simpl; repeat split; congruence.
  - destruct (MaybeRelocatable_IsZero (Dst ops)); simpl; [repeat split; congruence |].
    destruct (Relocatable_AddMaybeRelocatable _ (Op1 ops)); simpl; repeat split; congruence.
Qed.

(** X6. [UpdateRegisters] never touches the memory, and when it returns
    an error [pc] is what it was before the call (while [fp] and [ap] may
    already have been assigned). *)
Theorem UpdateRegisters_error_keeps_pc (vm : VirtualMachine) (i : Instruction)
  (ops : Operands) :
  vmMemory (snd (UpdateRegisters vm i ops)) = vmMemory vm /\
  (fst (UpdateRegisters vm i ops) <> Ok tt ->
   Pc (vmRunContext (snd (UpdateRegisters vm i ops))) = Pc (vmRunContext vm)).
Proof.
  unfold UpdateRegisters.
  pose proof (UpdateFp_frame vm i ops) as (Fm & Fpc & _ & _).
  destruct (UpdateFp vm i ops) as [[u | e |] vm1]; simpl in *;
    [| split; [assumption | intros _; assumption] ..].
  pose proof (UpdateAp_frame vm1 i ops) as (Am & Apc & _ & _).
  destruct (UpdateAp vm1 i ops) as [[u' | e |] vm2]; simpl in *;
    [| split; [congruence | intros _; congruence] ..].
  pose proof (UpdatePc_frame vm2 i ops) as (Pm & _ & _ & Pfail).
  split; [congruence |].
  intros Hfail. rewrite (Pfail Hfail). congruence.
Qed.

(** X7. Only an absolute jump moves [pc] to another segment: for every
    other pc-update, [UpdatePc] leaves the segment index of [pc] as it is. *)
Theorem UpdatePc_keeps_segment (vm : VirtualMachine) (i : Instruction) (ops : Operands)
  (Hjump : InstrPcUpdate i <> PcUpdateJump) :
  SegmentIndex (Pc (vmRunContext (snd (UpdatePc vm i ops))))
  = SegmentIndex (Pc (vmRunContext vm)).
Proof.
  unfold UpdatePc. destruct (InstrPcUpdate i); simpl; try reflexivity; try contradiction.
  - destruct (Res ops) as [r |]; simpl; [| reflexivity].
    destruct (MaybeRelocatable_GetFelt r) as [res ok]. destruct ok; simpl; [| reflexivity].
    destruct (Relocatable_AddFelt _ res) eqn:E; simpl; try reflexivity.
    apply (AddFelt_segment _ _ _ E).
  - destruct (MaybeRelocatable_IsZero (Dst ops)); simpl; [reflexivity |].
    destruct (Relocatable_AddMaybeRelocatable _ (Op1 ops)) eqn:E; simpl; try reflexivity.
    apply (AddMaybeRelocatable_segment _ _ _ E).
Qed.

Lemma UpdatePc_keeps_segment_witness :
  SegmentIndex
    (Pc (vmRunContext
           (snd (UpdatePc call_vm call_instruction
                   (mkOperands (MRelocatable (NewRelocatable 1 2))
                      (Some (MInt (FeltFromUint64 4)))
                      (MRelocatable (NewRelocatable 0 2)) (MInt (FeltFromUint64 4)))))))
  = SegmentIndex (Pc (vmRunContext call_vm)).
Proof.
  apply (UpdatePc_keeps_segment call_vm call_instruction). simpl. discriminate.
Defined.

(** X8. The register update of a call ([fp] set from [ap + 2], [ap]
    advanced by 2): because [fp] is assigned before [ap], the new [fp] and
    the new [ap] have the same offset, the old [ap] offset plus 2; the
    segment of [fp] is not assigned. This holds whether or not the update
    of [pc] then succeeds. *)
Theorem UpdateRegisters_call_frame (vm : VirtualMachine) (i : Instruction) (ops : Operands)
  (Hfp : InstrFpUpdate i = FpUpdateAPPlus2) (Hap : InstrApUpdate i = ApUpdateAdd2) :
  let rc' := vmRunContext (snd (UpdateRegisters vm i ops)) in
  Offset (Fp rc') = uint_add (Offset (Ap (vmRunContext vm))) 2 /\
  Offset (Ap rc') = uint_add (Offset (Ap (vmRunContext vm))) 2 /\
  SegmentIndex (Fp rc') = SegmentIndex (Fp (vmRunContext vm)) /\
  SegmentIndex (Ap rc') = SegmentIndex (Ap (vmRunContext vm)).
Proof.
  unfold UpdateRegisters, UpdateFp, UpdateAp. rewrite Hfp, Hap. simpl.
  match goal with |- context [UpdatePc ?v i ops] =>
    pose proof (UpdatePc_frame v i ops) as (_ & Pap & Pfp & _) end.
  simpl in Pap, Pfp. rewrite Pap, Pfp. simpl. auto.
Qed.

Lemma UpdateRegisters_call_frame_witness :
  Offset (Fp (vmRunContext
                (snd (UpdateRegisters call_vm call_instruction
                        (mkOperands (MRelocatable (NewRelocatable 1 2))
                           (Some (MInt (FeltFromUint64 4)))
                           (MRelocatable (NewRelocatable 0 2)) (MInt (FeltFromUint64 4)))))))
  = 4.
Proof.
  exact (proj1 (UpdateRegisters_call_frame call_vm call_instruction
                  (mkOperands (MRelocatable (NewRelocatable 1 2))
                     (Some (MInt (FeltFromUint64 4)))
                     (MRelocatable (NewRelocatable 0 2)) (MInt (FeltFromUint64 4)))
                  eq_refl eq_refl)).
Defined.

Lemma IsZero_iff (m : MaybeRelocatable) :
  MaybeRelocatable_IsZero m = true <-> m = MInt (mkFelt 0 0 0 0).
Proof.
  unfold MaybeRelocatable_IsZero. destruct m as [f | r |]; simpl.
  - change (FeltFromUint64 0) with (mkFelt 0 0 0 0). rewrite Felt_eqb_eq.
    split; congruence.
  - split; discriminate.
  - split; discriminate.
Qed.

(** X9. A conditional jump ([PcUpdateJnz]) steps over the instruction when
    [dst] is the Felt 0 and only then (an address is never zero); with any
    other [dst] it adds [op1] to [pc], which fails with "Can't add two
    relocatable values" when [op1] is an address and leaves [pc] alone. *)
Theorem UpdatePc_Jnz (vm : VirtualMachine) (i : Instruction) (ops : Operands)
  (Hjnz : InstrPcUpdate i = PcUpdateJnz) :
  (Dst ops = MInt (mkFelt 0 0 0 0) ->
   UpdatePc vm i ops
   = (Ok tt, set_Pc vm (bump_Offset (Pc (vmRunContext vm)) (Instruction_Size i)))) /\
  (Dst ops <> MInt (mkFelt 0 0 0 0) ->
   (forall r, Op1 ops = MRelocatable r ->
      UpdatePc vm i ops = (Err (New "Can't add two relocatable values"), vm)) /\
   (forall f new_pc, Op1 ops = MInt f ->
      Relocatable_AddFelt (Pc (vmRunContext vm)) f = Ok new_pc ->
      UpdatePc vm i ops = (Ok tt, set_Pc vm new_pc))).
Proof.
  unfold UpdatePc. rewrite Hjnz. split.
  - intros Hd. rewrite (proj2 (IsZero_iff (Dst ops)) Hd). reflexivity.
  - intros Hd.
    assert (Hz : MaybeRelocatable_IsZero (Dst ops) = false).
    { destruct (MaybeRelocatable_IsZero (Dst ops)) eqn:E; [| reflexivity].
      apply IsZero_iff in E. contradiction. }
    rewrite Hz. split.
    + intros r Hr. rewrite Hr. reflexivity.
    + intros f new_pc Hf Hadd. rewrite Hf.
      unfold Relocatable_AddMaybeRelocatable. simpl. rewrite Hadd. reflexivity.
Qed.

Lemma UpdatePc_Jnz_witness :
  UpdatePc call_vm jnz_instruction
    (mkOperands (MInt (FeltFromUint64 7)) None MNil (MRelocatable (NewRelocatable 0 9)))
  = (Err (New "Can't add two relocatable values"), call_vm).
Proof.
  assert (Hd : MInt (FeltFromUint64 7) <> MInt (mkFelt 0 0 0 0))
    by (vm_compute; discriminate).
  exact (proj1 (proj2 (UpdatePc_Jnz call_vm jnz_instruction
                         (mkOperands (MInt (FeltFromUint64 7)) None MNil
                            (MRelocatable (NewRelocatable 0 9))) eq_refl) Hd)
           (NewRelocatable 0 9) eq_refl).
Defined.

(** ** Adding a Felt to an address *)

(** X10. [AddFelt] on an address [(s, off)] and a Felt of value [v] keeps
    the segment; it moves the offset forward to [off + v] when that fits
    in 64 bits, and backward to [off + v - p] when the field sum wraps
    (so the Felt [p - k] subtracts [k]); a sum in between is the error
    "Cannot convert felt to u64". *)
Theorem AddFelt_forward_and_backward (r : Relocatable) (other : Felt)
  (Hoff : is_uint (Offset r)) (Hv : 0 <= felt_to_Z other < CAIRO_PRIME) :
  (Offset r + felt_to_Z other < 2 ^ 64 ->
   Relocatable_AddFelt r other
   = Ok (NewRelocatable (SegmentIndex r) (Offset r + felt_to_Z other))) /\
  (CAIRO_PRIME <= Offset r + felt_to_Z other ->
   Relocatable_AddFelt r other
   = Ok (NewRelocatable (SegmentIndex r) (Offset r + felt_to_Z other - CAIRO_PRIME))) /\
  (2 ^ 64 <= Offset r + felt_to_Z other < CAIRO_PRIME ->
   Relocatable_AddFelt r other = Err (New "Cannot convert felt to u64")).
Proof.
  pose proof (Relocatable_AddFelt_spec r other) as Hspec. simpl in Hspec.
  rewrite (felt_to_Z_of_uint _ Hoff) in Hspec. destruct Hspec as [Hlt Hge].
  pose proof CAIRO_PRIME_bounds as HP.
  assert (H64 : 2 ^ 64 < CAIRO_PRIME) by (unfold CAIRO_PRIME; lia).
  unfold is_uint, UINT_MOD in Hoff.
  split; [| split].
  - intros H. rewrite (Z.mod_small (Offset r + felt_to_Z other)) in Hlt by lia.
    apply Hlt. exact H.
  - intros H.
    assert (Hmod : (Offset r + felt_to_Z other) mod CAIRO_PRIME
                   = Offset r + felt_to_Z other - CAIRO_PRIME).
    { symmetry. apply (Z.mod_unique _ _ 1); lia. }
    rewrite Hmod in Hlt. apply Hlt. lia.
  - intros H. rewrite (Z.mod_small (Offset r + felt_to_Z other)) in Hge by lia.
    apply Hge. lia.
Qed.

Lemma AddFelt_forward_and_backward_witness :
  Relocatable_AddFelt (NewRelocatable 1 10) (felt_of_Z (CAIRO_PRIME - 3))
  = Ok (NewRelocatable 1 7).
Proof.
  assert (Hoff : is_uint (Offset (NewRelocatable 1 10)))
    by (unfold is_uint, UINT_MOD; simpl; lia).
  assert (Hv : 0 <= felt_to_Z (felt_of_Z (CAIRO_PRIME - 3)) < CAIRO_PRIME)
    by (vm_compute; split; [discriminate | reflexivity]).
  pose proof (AddFelt_forward_and_backward (NewRelocatable 1 10)
                (felt_of_Z (CAIRO_PRIME - 3)) Hoff Hv) as (_ & Hback & _).
  apply Hback. vm_compute. discriminate.
Defined.

(** ** Relocation of the trace *)

Lemma relocate_entries_appends (trace : list TraceEntry) (table : list Z) :
  forall (old new : list RelocatedTraceEntry),
    relocate_entries trace table old = Ok new ->
    exists added, new = old ++ added /\ Forall2 (relocates table) trace added.
Proof.
  induction trace as [| entry rest IH]; intros old new; simpl.
  - intros [= <-]. exists []. rewrite app_nil_r. split; [reflexivity | constructor].
  - destruct (Relocatable_RelocateAddress (tracePc entry) table) as [pc | |] eqn:Hpc;
      simpl; try discriminate.
    destruct (Relocatable_RelocateAddress (traceAp entry) table) as [ap | |] eqn:Hap;
      simpl; try discriminate.
    destruct (Relocatable_RelocateAddress (traceFp entry) table) as [fp | |] eqn:Hfp;
      simpl; try discriminate.
    intros H. destruct (IH _ _ H) as (added & -> & Hall).
    exists (mkRelocatedTraceEntry pc ap fp :: added). split.
    + rewrite <- app_assoc. reflexivity.
    + constructor; [| exact Hall]. unfold relocates. simpl. auto.
Qed.

(** X11. [RelocateTrace] fails with "No relocation found for execution
    segment" on a table of fewer than two entries, whatever the trace.
    When it succeeds, the relocated trace is the previous relocated trace
    followed by one entry per trace entry, in order, each the relocation
    of its three registers: entries are appended, never replaced. *)
Theorem RelocateTrace_appends (Trace : list TraceEntry)
  (RelocatedTrace : list RelocatedTraceEntry) (relocationTable : list Z) :
  ((length relocationTable < 2)%nat ->
   RelocateTrace Trace RelocatedTrace relocationTable
   = Err (New "No relocation found for execution segment")) /\
  (forall new,
     RelocateTrace Trace RelocatedTrace relocationTable = Ok new ->
     exists added,
       new = RelocatedTrace ++ added /\
       length added = length Trace /\
       Forall2 (relocates relocationTable) Trace added).
Proof.
  unfold RelocateTrace.
  destruct (Z.ltb_spec (Z.of_nat (length relocationTable)) 2) as [Hshort | Hlong].
  - split; [reflexivity | discriminate].
  - split; [lia |]. intros new H.
    destruct (relocate_entries_appends _ _ _ _ H) as (added & Hnew & Hall).
    exists added. split; [exact Hnew |]. split; [| exact Hall].
    symmetry. apply (Forall2_length _ _ _ Hall).
Qed.

Lemma RelocateTrace_appends_witness :
  exists added,
    [mkRelocatedTraceEntry 1 10 10; mkRelocatedTraceEntry 3 12 12]
    = [mkRelocatedTraceEntry 1 10 10] ++ added /\
    length added = 1%nat.
Proof.
  assert (H : RelocateTrace
                [mkTraceEntry (NewRelocatable 0 2) (NewRelocatable 1 2) (NewRelocatable 1 2)]
                [mkRelocatedTraceEntry 1 10 10] [1; 10]
              = Ok [mkRelocatedTraceEntry 1 10 10; mkRelocatedTraceEntry 3 12 12])
    by reflexivity.
  destruct (proj2 (RelocateTrace_appends _ _ _) _ H) as (added & Hnew & Hlen & _).
  exists added. split; [exact Hnew | exact Hlen].
Defined.

(** X12. After a relocation that started from an empty relocated trace,
    [GetRelocatedTrace] returns the relocated trace exactly when the
    trace had entries; relocating an empty trace succeeds, and
    [GetRelocatedTrace] then still fails with "Trace not relocated". *)
Theorem GetRelocatedTrace_after_RelocateTrace (Trace : list TraceEntry)
  (new : list RelocatedTraceEntry) (relocationTable : list Z)
  (Hok : RelocateTrace Trace [] relocationTable = Ok new) :
  (Trace <> [] -> GetRelocatedTrace new = Ok new) /\
  (Trace = [] -> GetRelocatedTrace new = Err (New "Trace not relocated")).
Proof.
  revert Hok. unfold RelocateTrace.
  destruct (Z.of_nat (length relocationTable) <? 2); [discriminate |].
  intros H. destruct (relocate_entries_appends _ _ _ _ H) as (added & -> & Hall).
  simpl. pose proof (Forall2_length _ _ _ Hall) as Hlen.
  unfold GetRelocatedTrace. split.
  - intros Hne. destruct Trace as [| e t]; [contradiction |].
    destruct added as [| a l]; [discriminate |]. reflexivity.
  - intros ->. destruct added as [| a l]; [reflexivity | discriminate].
Qed.

Lemma GetRelocatedTrace_after_RelocateTrace_witness :
  GetRelocatedTrace [] = Err (New "Trace not relocated").
Proof.
  assert (H : RelocateTrace [] [] [1; 10] = Ok []) by reflexivity.
  exact (proj2 (GetRelocatedTrace_after_RelocateTrace [] [] [1; 10] H) eq_refl).
Defined.

(** ** Deductions *)

(** X13. Whenever [DeduceOp0] or [DeduceOp1] deduces an operand for an
    [AssertEq] instruction, the [res] it returns with it is the [dst] it
    was given, and that [dst] is not nil. *)
Theorem deduced_res_is_dst Sub Div (vm : VirtualMachine) (i : Instruction)
  (dst other : option MaybeRelocatable) (deduced : MaybeRelocatable)
  (res : option MaybeRelocatable)
  (Hop : InstrOpcode i = AssertEq) :
  (DeduceOp0 Sub Div vm i dst other = Ok (Some deduced, res) -> res = dst /\ dst <> None) /\
  (DeduceOp1 Sub Div vm i dst other = Ok (Some deduced, res) -> res = dst /\ dst <> None).
Proof.
  unfold DeduceOp0, DeduceOp1. rewrite Hop. split.
  - destruct (InstrResLogic i); try discriminate.
    + destruct dst as [d |], other as [o |]; try discriminate.
      destruct (Sub d o); simpl; try discriminate. intros [= _ <-]. split; congruence.
    + destruct dst as [d |], other as [o |]; try discriminate.
      destruct (MaybeRelocatable_GetFelt d) as [df db].
      destruct (MaybeRelocatable_GetFelt o) as [o1f o1b].
      destruct (db && o1b && negb (Felt_IsZero o1f)); try discriminate.
      intros [= _ <-]. split; congruence.
  - destruct (InstrResLogic i); try discriminate.
    + intros H. inversion H; subst. split; congruence.
    + destruct other as [o |], dst as [d |]; try discriminate.
      destruct (Sub d o); simpl; try discriminate. intros [= _ <-]. split; congruence.
    + destruct dst as [d |]; simpl; [| discriminate].
      destruct (MaybeRelocatable_GetFelt d) as [df db].
      destruct other as [o |]; simpl; [| discriminate].
      destruct (MaybeRelocatable_GetFelt o) as [o0f o0b].
      destruct (db && o0b && negb (Felt_IsZero o0f)); try discriminate.
      intros [= _ <-]. split; congruence.
Qed.

Lemma deduced_res_is_dst_witness :
  Some (MInt (FeltFromUint64 12)) = Some (MInt (FeltFromUint64 12)) /\
  Some (MInt (FeltFromUint64 12)) <> None.
Proof.
  apply (proj1 (deduced_res_is_dst (fun a _ => Ok a) (fun a _ => a) mul_vm
                  mul_assert_instruction (Some (MInt (FeltFromUint64 12)))
                  (Some (MInt (FeltFromUint64 4)))
                  (MInt (FeltFromUint64 12)) (Some (MInt (FeltFromUint64 12))) eq_refl)).
  reflexivity.
Defined.

(** X14. [DeduceOp0] checks its pointers: whatever the instruction and
    whichever of [dst] and [op1] are nil, it returns (it does not panic),
    as long as [Sub] returns; and without both [dst] and [op1] it deduces
    nothing for an [AssertEq]. *)
Theorem DeduceOp0_handles_nil Sub Div (vm : VirtualMachine) (i : Instruction)
  (dst op1 : option MaybeRelocatable)
  (HSub : forall a b, Sub a b <> Panic) :
  DeduceOp0 Sub Div vm i dst op1 <> Panic /\
  (InstrOpcode i = AssertEq -> dst = None \/ op1 = None ->
   DeduceOp0 Sub Div vm i dst op1 = Ok (None, None)).
Proof.
  unfold DeduceOp0. split.
  - destruct (InstrOpcode i); try discriminate.
    destruct (InstrResLogic i); try discriminate.
    + destruct dst as [d |], op1 as [o |]; try discriminate.
      specialize (HSub d o). destruct (Sub d o); simpl; congruence.
    + destruct dst as [d |], op1 as [o |]; try discriminate.
      destruct (MaybeRelocatable_GetFelt d) as [df db].
      destruct (MaybeRelocatable_GetFelt o) as [o1f o1b].
      destruct (db && o1b && negb (Felt_IsZero o1f)); discriminate.
  - intros Hop Hnil. rewrite Hop.
    destruct (InstrResLogic i); try reflexivity;
      destruct Hnil as [-> | ->]; try reflexivity; destruct dst; reflexivity.
Qed.

Lemma DeduceOp0_handles_nil_witness :
  DeduceOp0 (fun a _ => Ok a) (fun a _ => a) mul_vm mul_assert_instruction None None <> Panic.
Proof.
  apply (DeduceOp0_handles_nil (fun a _ => Ok a) (fun a _ => a) mul_vm
           mul_assert_instruction None None).
  intros a b. discriminate.
Defined.

(** ** The pedersen runner, continued *)


Lemma verified_slice_not_grown (va : list bool) (off : Z) (b : bool) :
  0 <= off -> va !! Z.to_nat off = Some b ->
  (Z.of_nat (length va) <=? int_of_uint off) = false /\
  slice_assign va off b = Ok va.
Proof.
  intros Hoff Hv. pose proof (lookup_lt_Some _ _ _ Hv) as Hlen. split.
  - apply Z.leb_gt. unfold int_of_uint, UINT_MOD. destruct (off <? 2 ^ 63); lia.
  - unfold slice_assign.
    destruct (Z.leb_spec 0 off); [| lia].
    destruct (Z.ltb_spec off (Z.of_nat (length va))); [| lia]. simpl.
    rewrite list_insert_id by exact Hv. reflexivity.
Qed.

(** X15. Whenever [DeduceMemoryCell] of the pedersen runner returns, the
    runner is as it was before the call: the entry of
    [verified_addresses] it assigns is set to [false], which it already
    was, and the slice is never grown, so no address is ever recorded as
    verified. *)
Theorem Pedersen_DeduceMemoryCell_keeps_runner (PedersenHash : Felt -> Felt -> Felt)
  (p p' : PedersenBuiltinRunner) (address : Relocatable) (mem : Memory)
  (v : option MaybeRelocatable)
  (Hret : PedersenBuiltinRunner_DeduceMemoryCell PedersenHash p address mem = Ok (p', v)) :
  p' = p.
Proof.
  revert Hret. unfold PedersenBuiltinRunner_DeduceMemoryCell.
  destruct (negb _); [intros [= <- _]; reflexivity |].
  unfold slice_index.
  destruct (Z.ltb_spec (Offset address) 0) as [Hneg | Hpos]; [discriminate |].
  destruct (verified_addresses p !! Z.to_nat (Offset address)) as [b |] eqn:Hv;
    [| discriminate].
  simpl. destruct b; [intros [= <- _]; reflexivity |].
  destruct (Memory_GetFelt mem _) as [numA | |]; try discriminate;
    [| intros [= <- _]; reflexivity].
  destruct (Memory_GetFelt mem _) as [numB | |]; try discriminate;
    [| intros [= <- _]; reflexivity].
  destruct (verified_slice_not_grown _ _ _ Hpos Hv) as [Hgrown Hassign].
  rewrite Hgrown, Hassign. simpl. intros [= <- _]. destruct p; reflexivity.
Qed.

Lemma Pedersen_DeduceMemoryCell_keeps_runner_witness :
  mkPedersenBuiltinRunner (NewRelocatable 3 0) true [false; false; false] = pedersen_runner.
Proof.
  assert (H : PedersenBuiltinRunner_DeduceMemoryCell sample_hash pedersen_runner
                (NewRelocatable 3 2) pedersen_memory
              = Ok (pedersen_runner, Some (MInt (sample_hash (FeltFromUint64 6)
                                                   (FeltFromUint64 5)))))
    by (vm_compute; reflexivity).
  exact (Pedersen_DeduceMemoryCell_keeps_runner sample_hash pedersen_runner
           (mkPedersenBuiltinRunner (NewRelocatable 3 0) true [false; false; false])
           (NewRelocatable 3 2) pedersen_memory _ H).
Defined.



(** ** The dict manager, continued *)

(** X18. [GetTracker] returns a tracker exactly when the manager has one
    for the segment of the pointer and its [currentPtr] is the pointer;
    with no tracker for the segment it fails with "Dict Error: No dict
    tracker found for segment %d". *)
Theorem GetTracker_succeeds_iff (d : DictManager) (dict_ptr : Relocatable) :
  (forall tracker,
     DictManager_GetTracker d dict_ptr = Ok tracker <->
     trackers d !! SegmentIndex dict_ptr = Some tracker /\ currentPtr tracker = dict_ptr) /\
  (trackers d !! SegmentIndex dict_ptr = None ->
   DictManager_GetTracker d dict_ptr
   = Err (Errorf "Dict Error: No dict tracker found for segment %d"
            [ArgInt (SegmentIndex dict_ptr)])).
Proof.
  unfold DictManager_GetTracker. split.
  - intros tracker. destruct (trackers d !! SegmentIndex dict_ptr) as [t |].
    + destruct (decide (currentPtr t = dict_ptr)) as [E | N].
      * split; [intros [= <-]; auto | intros [[= <-] _]; reflexivity].
      * split; [discriminate | intros [[= <-] E]; contradiction].
    + split; [discriminate | intros [H _]; discriminate].
  - intros ->. reflexivity.
Qed.

(** X19. A value stored through a tracker is read back through every
    tracker that shares its map (such as the copies [GetTracker] hands
    out) and through [CopyDictionary], which returns the map itself;
    storing again under the same key replaces the value, and the other
    keys and the other maps are untouched. *)
Theorem InsertValue_then_GetValue (t t2 : DictTracker) (key val : MaybeRelocatable)
  (store store' : MapStore) (Hshare : dict (data t2) = dict (data t))
  (Hstored : DictTracker_InsertValue t key val store = Ok store') :
  DictTracker_GetValue t2 key store' = Ok (Some val, store') /\
  (store' !!! DictTracker_CopyDictionary t2) !! key = Some val /\
  (forall val2, exists store2,
     DictTracker_InsertValue t key val2 store' = Ok store2 /\
     DictTracker_GetValue t2 key store2 = Ok (Some val2, store2)) /\
  (forall other, other <> key ->
     (store' !!! dict (data t)) !! other = (store !!! dict (data t)) !! other) /\
  (forall l, l <> dict (data t) -> store' !!! l = store !!! l).
Proof.
  assert (Hins : forall v s s',
             DictTracker_InsertValue t key v s = Ok s' ->
             exists m, s !! dict (data t) = Some m /\
                       s' = <[dict (data t) := <[key := v]> m]> s).
  { intros v s s'. unfold DictTracker_InsertValue, Dictionary_Insert, map_assign.
    destruct (s !! dict (data t)) as [m |]; [| discriminate].
    intros [= <-]. exists m. auto. }
  assert (Hget : forall v s s',
             DictTracker_InsertValue t key v s = Ok s' ->
             (s' !!! dict (data t2)) !! key = Some v).
  { intros v s s' H. destruct (Hins v s s' H) as (m & _ & ->). rewrite Hshare.
    rewrite lookup_total_insert_eq. apply lookup_insert_eq. }
  destruct (Hins val store store' Hstored) as (m & Hm & Hstore').
  split.
  { unfold DictTracker_GetValue. apply Dictionary_Get_present.
    apply (Hget val store store' Hstored). }
  split; [apply (Hget val store store' Hstored) |].
  split.
  { intros val2.
    assert (H2 : DictTracker_InsertValue t key val2 store'
                 = Ok (<[dict (data t) := <[key := val2]> (<[key := val]> m)]> store')).
    { unfold DictTracker_InsertValue, Dictionary_Insert. apply map_assign_Some.
      rewrite Hstore'. apply lookup_insert_eq. }
    eexists. split; [exact H2 |].
    unfold DictTracker_GetValue. apply Dictionary_Get_present.
    apply (Hget val2 store' _ H2). }
  split.
  - intros other Hne. rewrite Hstore', lookup_total_insert_eq.
    rewrite (lookup_total_Some _ _ _ Hm). apply lookup_insert_ne. congruence.
  - intros l Hl. rewrite Hstore'. apply lookup_total_insert_ne. congruence.
Qed.

Lemma InsertValue_then_GetValue_witness :
  DictTracker_GetValue (advance_CurrentPtr sample_tracker) (MInt (FeltFromUint64 1))
    (<[0%nat := {[ MInt (FeltFromUint64 1) := MInt (FeltFromUint64 10) ]}]> {[ 0%nat := ∅ ]})
  = Ok (Some (MInt (FeltFromUint64 10)),
        <[0%nat := {[ MInt (FeltFromUint64 1) := MInt (FeltFromUint64 10) ]}]>
          {[ 0%nat := ∅ ]}).
Proof.
  assert (Hstored : DictTracker_InsertValue sample_tracker (MInt (FeltFromUint64 1))
                      (MInt (FeltFromUint64 10)) {[ 0%nat := ∅ ]}
                    = Ok (<[0%nat := {[ MInt (FeltFromUint64 1)
                                        := MInt (FeltFromUint64 10) ]}]> {[ 0%nat := ∅ ]}))
    by reflexivity.
  exact (proj1 (InsertValue_then_GetValue sample_tracker (advance_CurrentPtr sample_tracker)
                  (MInt (FeltFromUint64 1)) (MInt (FeltFromUint64 10))
                  {[ 0%nat := ∅ ]} _ eq_refl Hstored)).
Defined.

(** X20. A dictionary registered with [NewDefaultDictionary] gets the next
    segment; its tracker is found by [GetTracker] at the base of that
    segment, with the given default value and map; pointers into other
    segments find what they found before. *)
Theorem NewDefaultDictionary_registers_tracker (d : DictManager)
  (defaultValue : option MaybeRelocatable) (loc : nat) (num_segments : Z) :
  let base := NewRelocatable num_segments 0 in
  let d' := (DictManager_NewDefaultDictionary d defaultValue loc num_segments).1.2 in
  DictManager_NewDefaultDictionary d defaultValue loc num_segments
  = (base, d', num_segments + 1) /\
  DictManager_GetTracker d' base
  = Ok (mkDictTracker (mkDictionary loc defaultValue) base) /\
  (forall dict_ptr, SegmentIndex dict_ptr <> num_segments ->
     DictManager_GetTracker d' dict_ptr = DictManager_GetTracker d dict_ptr).
Proof.
  intros base d'. split; [reflexivity |]. split.
  - unfold DictManager_GetTracker, d'. simpl. rewrite lookup_insert_eq. simpl.
    destruct (decide (NewRelocatable num_segments 0 = base)); [reflexivity | contradiction].
  - intros dict_ptr Hne. unfold DictManager_GetTracker, d'. simpl.
    rewrite lookup_insert_ne by congruence. reflexivity.
Qed.

(** ** The dictionary hints, continued *)

Lemma dictWrite_keeps_scopes (ids : IdsManager) (st : HintState) :
  hScopes (snd (dictWrite ids st)) = hScopes st.
Proof.
  unfold dictWrite, hbind, fetch_dict_manager, hread, hret.
  destruct (FetchDictManager (hScopes st)) as [dm |]; [| reflexivity].
  destruct (IdsManager_GetRelocatable ids "dict_ptr" (hVm st)) as [p | |]; try reflexivity.
  destruct (IdsManager_Get ids "key" (hVm st)) as [k | |]; try reflexivity.
  destruct (IdsManager_Get ids "new_value" (hVm st)) as [nv | |]; try reflexivity.
  destruct (DictManager_GetTracker dm p) as [t | |]; try reflexivity.
  pose proof (tracker_GetValue_scopes (advance_CurrentPtr t) k st) as Hg.
  destruct (tracker_GetValue (advance_CurrentPtr t) k st) as [[v | e |] st1];
    simpl in Hg; try exact Hg.
  pose proof (ids_Insert_unchecked_scopes ids "prev_value" v st1) as Hi.
  destruct (ids_Insert_unchecked ids "prev_value" v st1) as [[u | e |] st2];
    simpl in Hi; simpl; try congruence.
  pose proof (tracker_InsertValue_scopes (advance_CurrentPtr t) k nv st2) as Hw.
  destruct (tracker_InsertValue (advance_CurrentPtr t) k nv st2) as [[u' | e |] st3];
    simpl in Hw; simpl; congruence.
Qed.

(** X21. None of [dictRead], [dictWrite] and [dictUpdate] changes the
    execution scopes, whether it succeeds or fails; so after any of them
    the dict manager answers [GetTracker] as it did before, for every
    pointer. *)
Theorem dict_hints_keep_trackers (ids : IdsManager) (st : HintState) :
  let after hint := snd (hint ids st) : HintState in
  (hScopes (after dictRead) = hScopes st /\
   hScopes (after dictWrite) = hScopes st /\
   hScopes (after dictUpdate) = hScopes st) /\
  (forall dict_ptr,
     next_fetch (after dictRead) dict_ptr = next_fetch st dict_ptr /\
     next_fetch (after dictWrite) dict_ptr = next_fetch st dict_ptr /\
     next_fetch (after dictUpdate) dict_ptr = next_fetch st dict_ptr).
Proof.
  simpl.
  pose proof (dictRead_keeps_scopes ids st) as Hr.
  pose proof (dictWrite_keeps_scopes ids st) as Hw.
  pose proof (dictUpdate_keeps_scopes ids st) as Hu.
  split; [auto |]. intros dict_ptr. unfold next_fetch. rewrite Hr, Hw, Hu. auto.
Qed.

(** X22. Without a dict manager in scope (no variable [__dict_manager],
    or one that holds a value of another type) each of the three hints
    fails with "Variable __dict_manager not present in current execution
    scope" and changes nothing. *)
Theorem dict_hints_need_manager (ids : IdsManager) (st : HintState)
  (Hnone : scope_vars (hScopes st) !! "__dict_manager" = None \/
           exists n, scope_vars (hScopes st) !! "__dict_manager" = Some (ScopeUint64 n)) :
  let missing :=
    (Err (New "Variable __dict_manager not present in current execution scope"), st) in
  dictRead ids st = missing /\ dictWrite ids st = missing /\ dictUpdate ids st = missing.
Proof.
  assert (Hf : FetchDictManager (hScopes st) = None).
  { unfold FetchDictManager, ExecutionScopes_Get.
    destruct Hnone as [-> | [n ->]]; reflexivity. }
  unfold dictRead, dictWrite, dictUpdate, hbind, fetch_dict_manager.
  rewrite Hf. auto.
Qed.

Lemma dict_hints_need_manager_witness :
  dictRead sample_ids
    (mkHintState (mkExecutionScopes {[ "__dict_manager" := ScopeUint64 7 ]}) ∅ call_vm)
  = (Err (New "Variable __dict_manager not present in current execution scope"),
     mkHintState (mkExecutionScopes {[ "__dict_manager" := ScopeUint64 7 ]}) ∅ call_vm).
Proof.
  apply (dict_hints_need_manager sample_ids
           (mkHintState (mkExecutionScopes {[ "__dict_manager" := ScopeUint64 7 ]}) ∅ call_vm)).
  right. exists 7. reflexivity.
Defined.

(** X23. [dictRead] reports success whether or not [ids.value] could be
    written. Once the tracker is fetched and the value [val] is read
    (leaving the store [store1]), the hint returns nil; the memory is the
    one [ids.Insert] produced if it succeeded, and the old one if it
    failed, for instance because [ids.value] already held another value. *)
Theorem dictRead_ignores_insert_error (ids : IdsManager) (st : HintState)
  (dictManager : DictManager) (dict_ptr : Relocatable) (key val : MaybeRelocatable)
  (tracker : DictTracker) (store1 : MapStore)
  (Hmanager : FetchDictManager (hScopes st) = Some dictManager)
  (Hptr : IdsManager_GetRelocatable ids "dict_ptr" (hVm st) = Ok dict_ptr)
  (Hkey : IdsManager_Get ids "key" (hVm st) = Ok key)
  (Htracker : DictManager_GetTracker dictManager dict_ptr = Ok tracker)
  (Hval : DictTracker_GetValue (advance_CurrentPtr tracker) key (hStore st)
          = Ok (Some val, store1)) :
  (forall vm', IdsManager_Insert ids "value" val (hVm st) = Ok vm' ->
     dictRead ids st = (Ok tt, mkHintState (hScopes st) store1 vm')) /\
  (forall e, IdsManager_Insert ids "value" val (hVm st) = Err e ->
     dictRead ids st = (Ok tt, mkHintState (hScopes st) store1 (hVm st))).
Proof.
  unfold dictRead, hbind, fetch_dict_manager, hread, hret.
  rewrite Hmanager, Hptr, Hkey, Htracker.
  unfold tracker_GetValue. rewrite Hval. unfold ids_Insert_unchecked. simpl.
  split; intros x Hx; rewrite Hx; reflexivity.
Qed.

Lemma dictRead_ignores_insert_error_witness :
  dictRead sample_ids state_value_taken = (Ok tt, state_value_taken).
Proof.
  exact (proj2 (dictRead_ignores_insert_error sample_ids state_value_taken
                  (mkDictManager {[ 2 := sample_tracker ]}) (NewRelocatable 2 0)
                  (MInt (FeltFromUint64 1)) (MInt (FeltFromUint64 10)) sample_tracker
                  (hStore state_value_taken)
                  ltac:(reflexivity) ltac:(reflexivity) ltac:(reflexivity)
                  ltac:(reflexivity) ltac:(reflexivity))
           (New "InconsistentMemory") ltac:(reflexivity)).
Defined.

Lemma dictWrite_run (ids : IdsManager) (st : HintState)
  (dictManager : DictManager) (dict_ptr : Relocatable)
  (key new_value prev : MaybeRelocatable) (tracker : DictTracker) (store1 : MapStore) :
  FetchDictManager (hScopes st) = Some dictManager ->
  IdsManager_GetRelocatable ids "dict_ptr" (hVm st) = Ok dict_ptr ->
  IdsManager_Get ids "key" (hVm st) = Ok key ->
  IdsManager_Get ids "new_value" (hVm st) = Ok new_value ->
  DictManager_GetTracker dictManager dict_ptr = Ok tracker ->
  DictTracker_GetValue (advance_CurrentPtr tracker) key (hStore st)
  = Ok (Some prev, store1) ->
  dictWrite ids st
  = (Ok tt, mkHintState (hScopes st)
              (<[dict (data tracker) :=
                   <[key := new_value]> (store1 !!! dict (data tracker))]> store1)
              (after_Insert ids "prev_value" prev (hVm st))).
Proof.
  intros Hmanager Hptr Hkey Hnew Htracker Hprev.
  pose proof (Dictionary_Insert_after_Get (data tracker) key prev new_value
                (hStore st) store1 Hprev) as Hinsert.
  unfold dictWrite, hbind, fetch_dict_manager, hread, hret.
  rewrite Hmanager, Hptr, Hkey, Hnew, Htracker.
  unfold tracker_GetValue. rewrite Hprev.
  unfold ids_Insert_unchecked, after_Insert, tracker_InsertValue, DictTracker_InsertValue.
  simpl.
  destruct (IdsManager_Insert ids "prev_value" prev (hVm st)); simpl;
    rewrite Hinsert; reflexivity.
Qed.

Lemma dictRead_run (ids : IdsManager) (st : HintState)
  (dictManager : DictManager) (dict_ptr : Relocatable) (key val : MaybeRelocatable)
  (tracker : DictTracker) (store1 : MapStore) :
  FetchDictManager (hScopes st) = Some dictManager ->
  IdsManager_GetRelocatable ids "dict_ptr" (hVm st) = Ok dict_ptr ->
  IdsManager_Get ids "key" (hVm st) = Ok key ->
  DictManager_GetTracker dictManager dict_ptr = Ok tracker ->
  DictTracker_GetValue (advance_CurrentPtr tracker) key (hStore st)
  = Ok (Some val, store1) ->
  dictRead ids st
  = (Ok tt, mkHintState (hScopes st) store1 (after_Insert ids "value" val (hVm st))).
Proof.
  intros Hmanager Hptr Hkey Htracker Hval.
  unfold dictRead, hbind, fetch_dict_manager, hread, hret.
  rewrite Hmanager, Hptr, Hkey, Htracker.
  unfold tracker_GetValue. rewrite Hval.
  unfold ids_Insert_unchecked, after_Insert. simpl.
  destruct (IdsManager_Insert ids "value" val (hVm st)); reflexivity.
Qed.

(** Cells that hold a value keep it through [ids.Insert]. *)
Lemma after_Insert_keeps_cells (ids : IdsManager) (name : string) (val : MaybeRelocatable)
  (vm : VirtualMachine) (addr : Relocatable) (x : MaybeRelocatable) :
  Data (vmMemory vm) !! addr = Some x ->
  Data (vmMemory (after_Insert ids name val vm)) !! addr = Some x.
Proof.
  intros Hx. unfold after_Insert, IdsManager_Insert.
  destruct (IdsManager_addr ids name) as [a | |]; simpl; try exact Hx.
  unfold Memory_Insert.
  destruct (Data (vmMemory vm) !! a) as [old |] eqn:Ha.
  - destruct (decide (old = val)); simpl; exact Hx.
  - simpl. rewrite lookup_insert_ne; [exact Hx | congruence].
Qed.

Lemma IdsManager_Get_after_Insert (ids : IdsManager) (name n : string)
  (val v : MaybeRelocatable) (vm : VirtualMachine) :
  IdsManager_Get ids n vm = Ok v ->
  IdsManager_Get ids n (after_Insert ids name val vm) = Ok v.
Proof.
  unfold IdsManager_Get, Memory_Get.
  destruct (IdsManager_addr ids n) as [a | |]; simpl; try discriminate.
  destruct (Data (vmMemory vm) !! a) as [x |] eqn:Hx; [| discriminate].
  intros [= <-]. rewrite (after_Insert_keeps_cells ids name val vm a x Hx). reflexivity.
Qed.

Lemma IdsManager_GetRelocatable_after_Insert (ids : IdsManager) (name n : string)
  (val : MaybeRelocatable) (r : Relocatable) (vm : VirtualMachine) :
  IdsManager_GetRelocatable ids n vm = Ok r ->
  IdsManager_GetRelocatable ids n (after_Insert ids name val vm) = Ok r.
Proof.
  unfold IdsManager_GetRelocatable, Memory_GetRelocatable, Memory_Get.
  destruct (IdsManager_addr ids n) as [a | |]; simpl; try discriminate.
  destruct (Data (vmMemory vm) !! a) as [x |] eqn:Hx; [| discriminate].
  rewrite (after_Insert_keeps_cells ids name val vm a x Hx). simpl. auto.
Qed.

(** X24. [dictWrite], once the tracker is fetched and the previous value
    read (leaving the store [store1]), returns nil and stores
    [ids.new_value] under [ids.key] in the map of the tracker; the
    previous value goes to [ids.prev_value] when that cell accepts it,
    and the memory is otherwise left as it was. *)
Theorem dictWrite_stores_new_value (ids : IdsManager) (st : HintState)
  (dictManager : DictManager) (dict_ptr : Relocatable)
  (key new_value prev : MaybeRelocatable) (tracker : DictTracker) (store1 : MapStore)
  (Hmanager : FetchDictManager (hScopes st) = Some dictManager)
  (Hptr : IdsManager_GetRelocatable ids "dict_ptr" (hVm st) = Ok dict_ptr)
  (Hkey : IdsManager_Get ids "key" (hVm st) = Ok key)
  (Hnew : IdsManager_Get ids "new_value" (hVm st) = Ok new_value)
  (Htracker : DictManager_GetTracker dictManager dict_ptr = Ok tracker)
  (Hprev : DictTracker_GetValue (advance_CurrentPtr tracker) key (hStore st)
           = Ok (Some prev, store1)) :
  let st' := snd (dictWrite ids st) in
  fst (dictWrite ids st) = Ok tt /\
  DictTracker_InsertValue tracker key new_value store1 = Ok (hStore st') /\
  (hStore st' !!! dict (data tracker)) !! key = Some new_value /\
  (forall vm', IdsManager_Insert ids "prev_value" prev (hVm st) = Ok vm' -> hVm st' = vm') /\
  (forall e, IdsManager_Insert ids "prev_value" prev (hVm st) = Err e -> hVm st' = hVm st).
Proof.
  rewrite (dictWrite_run ids st dictManager dict_ptr key new_value prev tracker store1
             Hmanager Hptr Hkey Hnew Htracker Hprev). simpl.
  split; [reflexivity |]. split.
  { apply (Dictionary_Insert_after_Get (data tracker) key prev new_value
             (hStore st) store1 Hprev). }
  split.
  - rewrite lookup_total_insert_eq. apply lookup_insert_eq.
  - unfold after_Insert. split; intros x Hx; rewrite Hx; reflexivity.
Qed.

Lemma dictWrite_stores_new_value_witness :
  fst (dictWrite sample_ids state_key_bound) = Ok tt /\
  (hStore (snd (dictWrite sample_ids state_key_bound)) !!! 0%nat)
    !! MInt (FeltFromUint64 1) = Some (MInt (FeltFromUint64 11)).
Proof.
  pose proof (dictWrite_stores_new_value sample_ids state_key_bound
                (mkDictManager {[ 2 := sample_tracker ]}) (NewRelocatable 2 0)
                (MInt (FeltFromUint64 1)) (MInt (FeltFromUint64 11))
                (MInt (FeltFromUint64 10)) sample_tracker (hStore state_key_bound)
                ltac:(reflexivity) ltac:(reflexivity) ltac:(reflexivity)
                ltac:(reflexivity) ltac:(reflexivity) ltac:(reflexivity))
    as (Hok & _ & Hkey & _).
  split; [exact Hok | exact Hkey].
Defined.

(** X25. A [dictRead] that follows a [dictWrite] with the same identifiers
    (the same [ids.dict_ptr], which still matches because the tracker
    pointer is never advanced, and the same [ids.key]) returns nil and
    reads back the value just written: [ids.value], if its cell was empty
    after the write, holds [ids.new_value]. *)
Theorem dictWrite_then_dictRead (ids : IdsManager) (st : HintState)
  (dictManager : DictManager) (dict_ptr value_addr : Relocatable)
  (key new_value prev : MaybeRelocatable) (tracker : DictTracker) (store1 : MapStore)
  (Hmanager : FetchDictManager (hScopes st) = Some dictManager)
  (Hptr : IdsManager_GetRelocatable ids "dict_ptr" (hVm st) = Ok dict_ptr)
  (Hkey : IdsManager_Get ids "key" (hVm st) = Ok key)
  (Hnew : IdsManager_Get ids "new_value" (hVm st) = Ok new_value)
  (Htracker : DictManager_GetTracker dictManager dict_ptr = Ok tracker)
  (Hprev : DictTracker_GetValue (advance_CurrentPtr tracker) key (hStore st)
           = Ok (Some prev, store1))
  (Haddr : References ids !! "value" = Some value_addr)
  (Hfree : Data (vmMemory (hVm (snd (dictWrite ids st)))) !! value_addr = None) :
  let st1 := snd (dictWrite ids st) in
  let st2 := snd (dictRead ids st1) in
  fst (dictRead ids st1) = Ok tt /\
  Data (vmMemory (hVm st2)) !! value_addr = Some new_value /\
  hStore st2 = hStore st1.
Proof.
  cbv zeta. revert Hfree.
  rewrite (dictWrite_run ids st dictManager dict_ptr key new_value prev tracker store1
             Hmanager Hptr Hkey Hnew Htracker Hprev).
  simpl. intros Hfree.
  set (store2 := <[dict (data tracker) :=
                      <[key := new_value]> (store1 !!! dict (data tracker))]> store1).
  assert (Hval : DictTracker_GetValue (advance_CurrentPtr tracker) key store2
                 = Ok (Some new_value, store2)).
  { unfold DictTracker_GetValue. apply Dictionary_Get_present. simpl.
    unfold store2. rewrite lookup_total_insert_eq. apply lookup_insert_eq. }
  rewrite (dictRead_run ids
             (mkHintState (hScopes st) store2
                (after_Insert ids "prev_value" prev (hVm st)))
             dictManager dict_ptr key new_value tracker _
             Hmanager
             (IdsManager_GetRelocatable_after_Insert ids "prev_value" "dict_ptr" prev
                dict_ptr (hVm st) Hptr)
             (IdsManager_Get_after_Insert ids "prev_value" "key" prev key (hVm st) Hkey)
             Htracker Hval).
  simpl. split; [reflexivity |]. split; [| reflexivity].
  unfold after_Insert at 1. unfold IdsManager_Insert, IdsManager_addr. rewrite Haddr. simpl.
  unfold Memory_Insert. rewrite Hfree. simpl. apply lookup_insert_eq.
Qed.

Lemma dictWrite_then_dictRead_witness :
  fst (dictRead sample_ids (snd (dictWrite sample_ids state_key_absent))) = Ok tt /\
  Data (vmMemory (hVm (snd (dictRead sample_ids (snd (dictWrite sample_ids state_key_absent))))))
    !! NewRelocatable 1 2 = Some (MInt (FeltFromUint64 11)).
Proof.
  pose proof (dictWrite_then_dictRead sample_ids state_key_absent
                (mkDictManager {[ 2 := sample_tracker ]}) (NewRelocatable 2 0)
                (NewRelocatable 1 2)
                (MInt (FeltFromUint64 1)) (MInt (FeltFromUint64 11))
                (MInt (FeltFromUint64 0)) sample_tracker
                (<[0%nat := {[ MInt (FeltFromUint64 1) := MInt (FeltFromUint64 0) ]}]>
                   (hStore state_key_absent))
                ltac:(reflexivity) ltac:(reflexivity) ltac:(reflexivity)
                ltac:(reflexivity) ltac:(reflexivity) ltac:(reflexivity)
                ltac:(reflexivity) ltac:(vm_compute; reflexivity))
    as (Hok & Hval & _).
  split; [exact Hok | exact Hval].
Defined.

(** ** The value deduced by the pedersen runner *)



(** ** Instances of the statements above *)

Lemma UpdateRegisters_error_keeps_pc_witness :
  fst (UpdateRegisters call_vm jnz_instruction
         (mkOperands (MInt (FeltFromUint64 7)) None MNil (MRelocatable (NewRelocatable 0 9))))
  <> Ok tt /\
  Pc (vmRunContext
        (snd (UpdateRegisters call_vm jnz_instruction
                (mkOperands (MInt (FeltFromUint64 7)) None MNil
                   (MRelocatable (NewRelocatable 0 9))))))
  = NewRelocatable 0 0.
Proof.
  assert (Hfail : fst (UpdateRegisters call_vm jnz_instruction
                         (mkOperands (MInt (FeltFromUint64 7)) None MNil
                            (MRelocatable (NewRelocatable 0 9)))) <> Ok tt)
    by (vm_compute; discriminate).
  split; [exact Hfail |].
  exact (proj2 (UpdateRegisters_error_keeps_pc call_vm jnz_instruction
                  (mkOperands (MInt (FeltFromUint64 7)) None MNil
                     (MRelocatable (NewRelocatable 0 9)))) Hfail).
Defined.

Lemma GetTracker_succeeds_iff_witness :
  DictManager_GetTracker (mkDictManager {[ 2 := sample_tracker ]}) (NewRelocatable 5 0)
  = Err (Errorf "Dict Error: No dict tracker found for segment %d" [ArgInt 5]).
Proof.
  apply (proj2 (GetTracker_succeeds_iff (mkDictManager {[ 2 := sample_tracker ]})
                  (NewRelocatable 5 0))).
  reflexivity.
Defined.

Lemma NewDefaultDictionary_registers_tracker_witness :
  DictManager_GetTracker
    (DictManager_NewDefaultDictionary NewDictManager (Some (MInt (FeltFromUint64 0))) 0 2).1.2
    (NewRelocatable 2 0)
  = Ok sample_tracker.
Proof.
  exact (proj1 (proj2 (NewDefaultDictionary_registers_tracker NewDictManager
                         (Some (MInt (FeltFromUint64 0))) 0 2))).
Defined.
